(** * KimDB Python SDK: the REST client and the WebSocket client

    A shallow embedding of [kimdb/client.py] and [kimdb/websocket.py].
    Python values that travel as JSON are the inductive [value]; Python
    dictionaries are finite maps; a Python call that has effects is a
    function from a state to an [outcome] and a new state, where the
    outcome is either a returned value or a raised exception. *)

From Stdlib Require Import ZArith QArith Ascii DecimalString Lia.
From stdpp Require Import base option list gmap strings fin_maps.

Set Default Proof Using "Type".
#[local] Open Scope Z_scope.

(** ** Python values, exceptions and effects *)

Module Py.

(** What [json.loads] produces, and what the SDK passes around as [Any]:
    [None], [bool], [int], [float], [str], [list] and [dict] with string
    keys.  A float is kept as its literal: no claim computes with one. *)
#[warnings="-register-all"]
Inductive value : Type :=
| JNull
| JBool (b : bool)
| JInt (z : Z)
| JFloat (lit : string)
| JStr (s : string)
| JArr (l : list value)
| JObj (m : gmap string value).

(** The exception classes the two modules raise, catch or let through.
    [RequestException] stands for [requests.RequestException] and all of
    its subclasses (what [except requests.RequestException] catches);
    [ConnectionError] and [TimeoutError] are the built-in classes.  Every
    class here derives from [Exception]. *)
Inductive exc_class : Type :=
| RequestException
| JSONDecodeError
| AttributeError
| TypeError
| KeyError
| ValueError
| RuntimeError
| TimeoutError
| ConnectionError
| OtherException (name : string).

(** An exception instance: its class and the single argument it was
    constructed with.  [OtherException] stands for a class that prints as
    [Exception] does. *)
Record exn : Type := Exn { cls : exc_class; arg : value }.

Inductive outcome (A : Type) : Type :=
| Return (a : A)
| Raise (e : exn).
Arguments Return {A} a.
Arguments Raise {A} e.

(** Library functions of the Python runtime the SDK calls and that are not
    re-implemented here. *)
Class PyRuntime : Type := {
  (** [repr] of a string, a float, a list or a dict; for the last three it
      is also what [str] gives *)
  py_repr : value -> string;
  (** [json.loads]: the parsed value, or the [JSONDecodeError] it raises *)
  json_loads : string -> outcome value;
  (** [urllib.parse.urljoin] *)
  urljoin : string -> string -> string
}.

(** [str(n)] and [f'{n}'] for an [int]. *)
Definition str_of_int (z : Z) : string := NilZero.string_of_int (Z.to_int z).

(** [str(v)] *)
Definition py_str `{PyRuntime} (v : value) : string :=
  match v with
  | JNull => "None"
  | JBool true => "True"
  | JBool false => "False"
  | JInt z => str_of_int z
  | JStr s => s
  | JFloat _ | JArr _ | JObj _ => py_repr v
  end.

(** [repr(v)] *)
Definition repr `{PyRuntime} (v : value) : string :=
  match v with
  | JNull => "None"
  | JBool true => "True"
  | JBool false => "False"
  | JInt z => str_of_int z
  | JStr _ | JFloat _ | JArr _ | JObj _ => py_repr v
  end.

(** [str(error)], which is also what an f-string puts for [{error}], for an
    exception built from one argument: the [str] of the argument, except
    for a [KeyError], which gives the [repr] of its key. *)
Definition str_of_exn `{PyRuntime} (e : exn) : string :=
  match cls e with
  | KeyError => repr (arg e)
  | _ => py_str (arg e)
  end.

(** [type(v).__name__] *)
Definition type_name (v : value) : string :=
  match v with
  | JNull => "NoneType"
  | JBool _ => "bool"
  | JInt _ => "int"
  | JFloat _ => "float"
  | JStr _ => "str"
  | JArr _ => "list"
  | JObj _ => "dict"
  end.

(** The [AttributeError] of [v.name] on a value that has no such attribute. *)
Definition no_attribute (v : value) (name : string) : exn :=
  Exn AttributeError
      (JStr ("'" ++ type_name v ++ "' object has no attribute '" ++ name ++ "'")).

(** [v.get(key, default)]: only a dict has [get]. *)
Definition get (v : value) (key : string) (default : value) : outcome value :=
  match v with
  | JObj m => Return (match m !! key with Some x => x | None => default end)
  | _ => Raise (no_attribute v "get")
  end.

(** [v == s] for a string literal [s]. *)
Definition eq_str (v : value) (s : string) : bool :=
  match v with
  | JStr t => String.eqb t s
  | _ => false
  end.

(** [for x in v]: the items a [for] loop visits.  A dict yields its keys
    and a string its characters (strings either way); the order of the keys
    is not kept by the finite map. *)
Definition iter (v : value) : outcome (list value) :=
  match v with
  | JArr l => Return l
  | JObj m => Return (JStr <$> (map_to_list m).*1)
  | JStr s =>
      Return ((fun a => JStr (String a EmptyString))
                <$> Stdlib.Strings.String.list_ascii_of_string s)
  | _ => Raise (Exn TypeError (JStr ("'" ++ type_name v ++ "' object is not iterable")))
  end.

(** [range(n)] *)
Definition range (n : Z) : list Z := Z.of_nat <$> seq 0 (Z.to_nat n).

(** Truth value of an [Optional[int]] and of an [Optional[str]]. *)
Definition truthy_int (o : option Z) : bool :=
  match o with
  | Some z => negb (z =? 0)
  | None => false
  end.

Definition truthy_str (o : option string) : bool :=
  match o with
  | Some s => negb (String.eqb s EmptyString)
  | None => false
  end.

(** Effectful code: a state of type [S] goes in, an outcome and the new
    state come out.  A raised exception keeps the effects made so far. *)
Definition M (S A : Type) : Type := S -> outcome A * S.

Definition ret {S A} (a : A) : M S A := fun s => (Return a, s).

Definition raise {S A} (e : exn) : M S A := fun s => (Raise e, s).

Definition bind {S A B} (m : M S A) (k : A -> M S B) : M S B :=
  fun s =>
    match m s with
    | (Return a, s') => k a s'
    | (Raise e, s') => (Raise e, s')
    end.

(** An outcome computed without effects, used inside effectful code. *)
Definition lift {S A} (o : outcome A) : M S A := fun s => (o, s).

(** [try: m  except <classes accepted by catches> as error: handler error] *)
Definition try_except {S A} (m : M S A) (catches : exn -> bool) (handler : exn -> M S A)
  : M S A :=
  fun s =>
    match m s with
    | (Return a, s') => (Return a, s')
    | (Raise e, s') => if catches e then handler e s' else (Raise e, s')
    end.

(** Sequencing for pure outcomes. *)
Definition and_then {A B} (o : outcome A) (k : A -> outcome B) : outcome B :=
  match o with
  | Return a => k a
  | Raise e => Raise e
  end.

End Py.

Declare Scope py_scope.
Delimit Scope py_scope with py.
Notation "'let*' x ':=' m 'in' k" := (Py.bind m (fun x => k))
  (at level 10, x name, m at level 100, k at level 200) : py_scope.
Notation "'let?' x ':=' o 'in' k" := (Py.and_then o (fun x => k))
  (at level 10, x name, o at level 100, k at level 200) : py_scope.

(** ** [kimdb/client.py] *)

Module Client.
Import Py.
#[local] Open Scope py_scope.

Record DocumentQuery : Type := {
  limit : option Z;
  skip : option Z;
  sort : option string
}.

Record KimDBClient : Type := {
  base_url : string;
  token : option string;
  api_key : option string;
  timeout : Z;
  retries : Z
}.

(** The keyword arguments of [session.request]. *)
Record HttpRequest : Type := {
  req_method : string;
  req_url : string;
  req_json : option value;
  req_params : option (gmap string value);
  req_timeout : Z
}.

(** What the code reads of a [requests.Response]: the attributes [ok],
    [text], [reason], [status_code] and the result of calling [json()]. *)
Record Response : Type := {
  ok : bool;
  text : string;
  reason : string;
  status_code : Z;
  json : outcome value
}.

Inductive event : Type :=
| EvRequest (r : HttpRequest)
| EvSleep (seconds : Z).

(** The world the client acts on.  [server n r] is what the [n]-th call of
    [session.request] (counted from 0 over the life of the session) gives
    for the request [r]: a response, or the exception the transport
    raises.  [calls] counts the calls made and [trace] lists the requests
    and the sleeps in the order they happened. *)
Record world : Type := {
  server : nat -> HttpRequest -> outcome Response;
  calls : nat;
  trace : list event
}.

Definition session_request (r : HttpRequest) : M world Response :=
  fun w =>
    (server w (calls w) r,
     {| server := server w; calls := S (calls w); trace := trace w ++ [EvRequest r] |}).

Definition sleep (seconds : Z) : M world unit :=
  fun w =>
    (Return tt,
     {| server := server w; calls := calls w; trace := trace w ++ [EvSleep seconds] |}).

Definition is_request_exception (e : exn) : bool :=
  match cls e with
  | RequestException => true
  | _ => false
  end.

(** The statements of [_request]'s [try] block that follow the call of
    [session.request], given what that call gave. *)
Definition handle_response (res : outcome Response) : outcome value :=
  let? response := res in
  if negb (ok response) then
    let? error_data := (if negb (String.eqb (text response) EmptyString)
                        then json response
                        else Return (JObj {[ "error" := JStr (reason response) ]})) in
    let? message := get error_data "error"
                      (JStr ("HTTP " ++ str_of_int (status_code response))) in
    Raise (Exn RequestException message)
  else
    json response.

(** The [for attempt in range(self.retries + 1)] loop, over the attempt
    numbers still to run, followed by the final [raise]. *)
Fixpoint request_loop (self : KimDBClient) (r : HttpRequest) (attempts : list Z)
    (last_error : option exn) : M world value :=
  match attempts with
  | [] =>
      raise (match last_error with
             | Some e => e
             | None => Exn RequestException (JStr "Unknown error")
             end)
  | attempt :: rest =>
      fun w =>
        let (res, w1) := session_request r w in
        match handle_response res with
        | Return v => (Return v, w1)
        | Raise error =>
            if is_request_exception error then
              let w2 := if attempt <? retries self
                        then snd (sleep (1 * (attempt + 1)) w1)
                        else w1 in
              request_loop self r rest (Some error) w2
            else (Raise error, w1)
        end
  end.

Definition _request `{PyRuntime} (self : KimDBClient) (method path : string)
    (data : option value) (params : option (gmap string value)) : M world value :=
  let url := urljoin (base_url self) path in
  request_loop self
    {| req_method := method; req_url := url; req_json := data;
       req_params := params; req_timeout := timeout self |}
    (range (retries self + 1)) None.

(** The [params] dictionary [get_collection] builds. *)
Definition get_collection_params (query : option DocumentQuery) : gmap string value :=
  let params : gmap string value := ∅ in
  match query with
  | Some q =>
      let params := if truthy_int (limit q)
                    then <["limit" := JInt (default 0 (limit q))]> params else params in
      let params := if truthy_int (skip q)
                    then <["skip" := JInt (default 0 (skip q))]> params else params in
      let params := if truthy_str (sort q)
                    then <["sort" := JStr (default EmptyString (sort q))]> params else params in
      params
  | None => params
  end.

Definition get_collection `{PyRuntime} (self : KimDBClient) (collection : string)
    (query : option DocumentQuery) : M world value :=
  _request self "GET" ("/api/c/" ++ collection) None (Some (get_collection_params query)).

Definition query `{PyRuntime} (self : KimDBClient) (sql collection : string)
    (params : option (list value)) : M world value :=
  let body : gmap string value :=
    {[ "sql" := JStr sql; "collection" := JStr collection ]} in
  let body := match params with
              | Some (p :: ps) => <["params" := JArr (p :: ps)]> body
              | _ => body
              end in
  _request self "POST" "/api/sql" (Some (JObj body)) None.

(** One turn of [group_by]'s loop: [result[str(row[field])] = row.get('count', 0)].
    Python evaluates the right-hand side first, so a row that is not a
    dict fails on [get]; a dict without [field] fails on the subscript. *)
Definition group_by_step `{PyRuntime} (field : string) (result : gmap string value)
    (row : value) : outcome (gmap string value) :=
  let? count := get row "count" (JInt 0) in
  match row with
  | JObj m =>
      match m !! field with
      | Some key => Return (<[py_str key := count]> result)
      | None => Raise (Exn KeyError (JStr field))
      end
  | _ => Raise (no_attribute row "get")
  end.

Fixpoint group_by_rows `{PyRuntime} (field : string) (rows : list value)
    (result : gmap string value) : outcome (gmap string value) :=
  match rows with
  | [] => Return result
  | row :: rest =>
      let? result' := group_by_step field result row in
      group_by_rows field rest result'
  end.

Definition group_by `{PyRuntime} (self : KimDBClient) (collection field : string)
  : M world (gmap string value) :=
  let* response := query self
      ("SELECT " ++ field ++ ", COUNT(*) as count FROM " ++ collection
         ++ " GROUP BY " ++ field)
      collection None in
  lift (let? rows := get response "rows" (JArr []) in
        let? items := iter rows in
        group_by_rows field items ∅).

(** *** The rest of the client *)

(** [s.rstrip(c)] for a one-character [c]. *)
Fixpoint rstrip (c : ascii) (s : string) : string :=
  match s with
  | EmptyString => EmptyString
  | String a rest =>
      match rstrip c rest with
      | EmptyString => if Ascii.eqb a c then EmptyString else String a EmptyString
      | String b rest' => String a (String b rest')
      end
  end.

(** The attributes [__init__] sets from its arguments; the session and its
    headers are [_setup_headers]'s. *)
Definition __init__ (base_url : string) (token api_key : option string)
    (timeout retries : Z) : KimDBClient :=
  {| base_url := rstrip "/" base_url; token := token; api_key := api_key;
     timeout := timeout; retries := retries |}.

(** The headers of a [requests] session are kept without regard to the
    case of their names: the store maps the lower-cased name to the name as
    last written and the value. *)
Definition headers_update (name lower value : string)
    (headers : gmap string (string * string)) : gmap string (string * string) :=
  <[lower := (name, value)]> headers.

(** [_setup_headers], from the headers the new session starts with to the
    headers it leaves. *)
Definition _setup_headers (self : KimDBClient) (headers : gmap string (string * string))
  : gmap string (string * string) :=
  let headers := headers_update "Content-Type" "content-type" "application/json" headers in
  if truthy_str (token self) then
    headers_update "Authorization" "authorization"
      ("Bearer " ++ default EmptyString (token self)) headers
  else if truthy_str (api_key self) then
    headers_update "X-API-Key" "x-api-key" (default EmptyString (api_key self)) headers
  else headers.

Record Document : Type := {
  id : value;
  data : value;
  _version : value;
  _created : value;
  _updated : value
}.

(** [v[key]] for a string [key].  The text for a string [v] is the one of
    Python 3.11 and later. *)
Definition subscript (v : value) (key : string) : outcome value :=
  match v with
  | JObj m =>
      match m !! key with
      | Some x => Return x
      | None => Raise (Exn KeyError (JStr key))
      end
  | JArr _ => Raise (Exn TypeError (JStr "list indices must be integers or slices, not str"))
  | JStr _ => Raise (Exn TypeError (JStr "string indices must be integers, not 'str'"))
  | _ => Raise (Exn TypeError (JStr ("'" ++ type_name v ++ "' object is not subscriptable")))
  end.

Definition get_document `{PyRuntime} (self : KimDBClient) (collection doc_id : string)
  : M world Document :=
  let* response := _request self "GET" ("/api/c/" ++ collection ++ "/" ++ doc_id)
                     None None in
  lift (let? id := subscript response "id" in
        let? data := subscript response "data" in
        let? version := subscript response "_version" in
        let? created := get response "_created" JNull in
        let? updated := get response "_updated" JNull in
        Return {| id := id; data := data; _version := version;
                  _created := created; _updated := updated |}).

(** The truth value of [v].  A float is false when it is zero, that is
    when its [repr] is [0.0] or [-0.0]. *)
Definition truthy `{PyRuntime} (v : value) : bool :=
  match v with
  | JNull => false
  | JBool b => b
  | JInt z => negb (z =? 0)
  | JFloat _ => negb (String.eqb (py_repr v) "0.0" || String.eqb (py_repr v) "-0.0")
  | JStr s => negb (String.eqb s EmptyString)
  | JArr l => match l with [] => false | _ :: _ => true end
  | JObj m => negb (bool_decide (m = ∅))
  end.

(** [v[0]].  A string gives its first character, kept here as its first
    byte; a dict has string keys only, so [0] is never one of them. *)
Definition first_item (v : value) : outcome value :=
  match v with
  | JArr (x :: _) => Return x
  | JArr [] => Raise (Exn (OtherException "IndexError") (JStr "list index out of range"))
  | JStr (String a _) => Return (JStr (String a EmptyString))
  | JStr EmptyString =>
      Raise (Exn (OtherException "IndexError") (JStr "string index out of range"))
  | JObj _ => Raise (Exn KeyError (JInt 0))
  | _ => Raise (Exn TypeError (JStr ("'" ++ type_name v ++ "' object is not subscriptable")))
  end.

Definition count `{PyRuntime} (self : KimDBClient) (collection : string)
    (where_clause : option string) : M world value :=
  let sql := ("SELECT COUNT(*) as total FROM " ++ collection)%string in
  let sql := if truthy_str where_clause
             then (sql ++ " WHERE " ++ default EmptyString where_clause)%string
             else sql in
  let* response := query self sql collection None in
  lift (let? rows := get response "rows" (JArr []) in
        if truthy rows
        then let? first := first_item rows in get first "total" (JInt 0)
        else Return (JInt 0)).

(** *** Vocabulary for the statements about [_request] *)

(** What the [k]-th attempt of a request [r] that starts in the world [w]
    comes to: the value it returns or the exception it raises. *)
Definition attempt_outcome (w : world) (r : HttpRequest) (k : nat) : outcome value :=
  handle_response (server w (calls w + k)%nat r).

(** An attempt fails transiently when it raises an exception that the
    [except requests.RequestException] clause catches. *)
Definition transient (o : outcome value) : bool :=
  match o with
  | Return _ => false
  | Raise e => is_request_exception e
  end.

(** The events of [m] attempts numbered from [a], with the linear backoff
    between one attempt and the next and nothing after the last. *)
Fixpoint backoff_trace (r : HttpRequest) (a m : nat) : list event :=
  match m with
  | O => []
  | S m' =>
      match m' with
      | O => [EvRequest r]
      | S _ => EvRequest r :: EvSleep (Z.of_nat (S a)) :: backoff_trace r (S a) m'
      end
  end.

Definition is_sleep (e : event) : bool :=
  match e with
  | EvSleep _ => true
  | EvRequest _ => false
  end.

(** The sleeps of a trace, in order, and the number of requests in it. *)
Definition sleeps (t : list event) : list Z :=
  omap (fun e => match e with EvSleep s => Some s | EvRequest _ => None end) t.

Definition requests (t : list event) : nat :=
  length (filter (fun e => is_sleep e = false) t).

Definition unknown_error : exn := Exn RequestException (JStr "Unknown error").

(** The request [_request] hands to [session.request] at every attempt. *)
Definition request_of `{PyRuntime} (self : KimDBClient) (method path : string)
    (data : option value) (params : option (gmap string value)) : HttpRequest :=
  {| req_method := method; req_url := urljoin (base_url self) path; req_json := data;
     req_params := params; req_timeout := timeout self |}.

(** What the loop does from attempt number [a] on, when [n] attempts
    remain: it makes [m] of them. *)
Definition loop_post (r : HttpRequest) (a n : nat) (last : option exn) (w : world)
    (R : outcome value * world) : Prop :=
  ∃ m : nat,
    (m ≤ n)%nat ∧ ((0 < n)%nat → (0 < m)%nat)
    ∧ calls R.2 = (calls w + m)%nat
    ∧ server R.2 = server w
    ∧ trace R.2 = trace w ++ backoff_trace r a m
    ∧ (m = 0%nat → R.1 = Raise (default unknown_error last))
    ∧ ((0 < m)%nat → R.1 = attempt_outcome w r (m - 1))
    ∧ (∀ k, (k < m - 1)%nat → transient (attempt_outcome w r k) = true)
    ∧ ((m < n)%nat → transient (attempt_outcome w r (m - 1)) = false).

(** The fold the specification describes, over rows that are objects:
    from left to right, [str(row[field])] is given the row's [count], [0]
    when the row has none. *)
Definition group_by_fold `{PyRuntime} (field : string) (rows : list (gmap string value))
  : gmap string value :=
  foldl (fun result row =>
           <[py_str (default JNull (row !! field)) := default (JInt 0) (row !! "count")]>
             result)
        ∅ rows.

End Client.

(** ** [kimdb/websocket.py] *)

Module WebSocket.
Import Py.
#[local] Open Scope py_scope.

(** A listener: [cb_id] tells listeners apart and [cb_run data] is what a
    call [callback(data)] does, [None] when it returns and [Some e] when it
    raises [e].  A listener is taken to leave the dict it is given as it
    found it and not to call back into the client. *)
Record callback : Type := { cb_id : nat; cb_run : value -> option exn }.

(** The handle [WebSocketApp(self.url, ...)] gives. *)
Inductive WebSocketApp : Type := App (url : string).

Record KimDBWebSocket : Type := {
  url : string;
  node_id : string;
  ws : option WebSocketApp;
  connected : bool;
  callbacks : gmap string (list callback)
}.

(** The object together with what its methods do to the outside.
    [transport n m] is what the [n]-th call of [ws.send] does with the
    message [m] ([None]: it returns; [Some e]: it raises [e]); [sent] lists
    the messages handed to [ws.send], each as the dict given to
    [json.dumps]; [printed] lists the lines printed and [invoked] the
    listener calls made, oldest first. *)
Record state : Type := {
  self : KimDBWebSocket;
  transport : nat -> value -> option exn;
  sent : list value;
  printed : list string;
  invoked : list (nat * value)
}.

Definition set_self (o : KimDBWebSocket) (st : state) : state :=
  {| self := o; transport := transport st; sent := sent st;
     printed := printed st; invoked := invoked st |}.

Definition set_callbacks (c : gmap string (list callback)) (o : KimDBWebSocket)
  : KimDBWebSocket :=
  {| url := url o; node_id := node_id o; ws := ws o; connected := connected o;
     callbacks := c |}.

Definition print (line : string) : M state unit :=
  fun st =>
    (Return tt,
     {| self := self st; transport := transport st; sent := sent st;
        printed := printed st ++ [line]; invoked := invoked st |}).

(** The call [callback(data)] inside [_emit]'s [try]. *)
Definition call (cb : callback) (data : value) : M state unit :=
  fun st =>
    let st' := {| self := self st; transport := transport st; sent := sent st;
                  printed := printed st; invoked := invoked st ++ [(cb_id cb, data)] |} in
    match cb_run cb data with
    | None => (Return tt, st')
    | Some e => (Raise e, st')
    end.

(** [__init__]; [now_ms] is [int(time.time() * 1000)] at the call. *)
Definition __init__ (url : string) (node_id : option string) (now_ms : Z)
  : KimDBWebSocket :=
  {| url := url;
     node_id := if truthy_str node_id then default EmptyString node_id
                else "client-" ++ str_of_int now_ms;
     ws := None;
     connected := false;
     callbacks := {[ "connected" := []; "disconnected" := []; "subscribed" := [];
                     "doc.synced" := []; "doc.updated" := [];
                     "presence.changed" := []; "pong" := []; "error" := [] ]} |}.

Definition on (event : string) (cb : callback) : M state unit :=
  fun st =>
    let registry := callbacks (self st) in
    let registry := match registry !! event with
                    | None => <[event := []]> registry
                    | Some _ => registry
                    end in
    (Return tt,
     set_self (set_callbacks (alter (fun l => l ++ [cb]) event registry) (self st)) st).

(** The [for callback in self.callbacks[event]] loop of [_emit]. *)
Fixpoint emit_loop `{PyRuntime} (listeners : list callback) (data : value) : M state unit :=
  match listeners with
  | [] => ret tt
  | cb :: rest =>
      let* _ := try_except (call cb data) (fun _ => true)
                  (fun error => print ("[KimDB] Callback error: " ++ str_of_exn error)) in
      emit_loop rest data
  end.

Definition _emit `{PyRuntime} (event : string) (data : value) : M state unit :=
  fun st =>
    match callbacks (self st) !! event with
    | Some listeners => emit_loop listeners data st
    | None => (Return tt, st)
    end.

Definition _handle_message `{PyRuntime} (message : value) : M state unit :=
  let* msg_type := lift (get message "type" JNull) in
  if eq_str msg_type "subscribed" then
    let* collection := lift (get message "collection" JNull) in
    _emit "subscribed" (JObj {[ "collection" := collection ]})
  else if eq_str msg_type "doc.synced" then
    let* collection := lift (get message "collection" JNull) in
    let* docId := lift (get message "docId" JNull) in
    let* data := lift (get message "data" JNull) in
    let* version := lift (get message "_version" JNull) in
    _emit "doc.synced" (JObj {[ "collection" := collection; "docId" := docId;
                                "data" := data; "version" := version ]})
  else if eq_str msg_type "doc.updated" then
    let* docId := lift (get message "docId" JNull) in
    let* success := lift (get message "success" JNull) in
    let* version := lift (get message "_version" JNull) in
    _emit "doc.updated" (JObj {[ "docId" := docId; "success" := success;
                                 "version" := version ]})
  else if eq_str msg_type "presence.changed" then
    let* docId := lift (get message "docId" JNull) in
    let* nodeId := lift (get message "nodeId" JNull) in
    let* presence := lift (get message "presence" JNull) in
    _emit "presence.changed" (JObj {[ "docId" := docId; "nodeId" := nodeId;
                                      "presence" := presence ]})
  else if eq_str msg_type "pong" then
    let* timestamp := lift (get message "timestamp" JNull) in
    _emit "pong" (JObj {[ "timestamp" := timestamp ]})
  else if eq_str msg_type "error" then
    let* error := lift (get message "error" (JStr "Unknown error")) in
    _emit "error" (JObj {[ "message" := error ]})
  else ret tt.

Definition is_json_decode_error (e : exn) : bool :=
  match cls e with
  | JSONDecodeError => true
  | _ => false
  end.

Definition _on_message `{PyRuntime} (message : string) : M state unit :=
  try_except
    (let* data := lift (json_loads message) in _handle_message data)
    is_json_decode_error
    (fun error => print ("[KimDB] Failed to parse message: " ++ str_of_exn error)).

(** [self.ws.send(json.dumps(message))] *)
Definition ws_send (message : value) : M state unit :=
  fun st =>
    match ws (self st) with
    | None => (Raise (no_attribute JNull "send"), st)
    | Some _ =>
        let st' := {| self := self st; transport := transport st;
                      sent := sent st ++ [message];
                      printed := printed st; invoked := invoked st |} in
        match transport st (length (sent st)) message with
        | None => (Return tt, st')
        | Some e => (Raise e, st')
        end
    end.

Definition not_connected : exn := Exn RuntimeError (JStr "WebSocket not connected").

Definition subscribe (collection : string) : M state unit :=
  fun st =>
    if negb (connected (self st)) then raise not_connected st
    else
      let message : gmap string value :=
        {[ "type" := JStr "subscribe"; "collection" := JStr collection ]} in
      ws_send (JObj message) st.

Definition subscribe_document (collection doc_id : string) : M state unit :=
  fun st =>
    if negb (connected (self st)) then raise not_connected st
    else
      let message : gmap string value :=
        {[ "type" := JStr "doc.subscribe"; "collection" := JStr collection;
           "docId" := JStr doc_id ]} in
      ws_send (JObj message) st.

Definition update_document (collection doc_id : string) (data : value) : M state unit :=
  fun st =>
    if negb (connected (self st)) then raise not_connected st
    else
      let message : gmap string value :=
        {[ "type" := JStr "doc.update"; "collection" := JStr collection;
           "docId" := JStr doc_id; "data" := data;
           "nodeId" := JStr (node_id (self st)) ]} in
      ws_send (JObj message) st.

Definition undo (collection doc_id : string) : M state unit :=
  fun st =>
    if negb (connected (self st)) then raise not_connected st
    else
      let message : gmap string value :=
        {[ "type" := JStr "doc.undo"; "collection" := JStr collection;
           "docId" := JStr doc_id; "nodeId" := JStr (node_id (self st)) ]} in
      ws_send (JObj message) st.

Definition redo (collection doc_id : string) : M state unit :=
  fun st =>
    if negb (connected (self st)) then raise not_connected st
    else
      let message : gmap string value :=
        {[ "type" := JStr "doc.redo"; "collection" := JStr collection;
           "docId" := JStr doc_id; "nodeId" := JStr (node_id (self st)) ]} in
      ws_send (JObj message) st.

Definition update_presence (collection doc_id : string) (presence : value)
  : M state unit :=
  fun st =>
    if negb (connected (self st)) then raise not_connected st
    else
      let message : gmap string value :=
        {[ "type" := JStr "presence.update"; "collection" := JStr collection;
           "docId" := JStr doc_id; "nodeId" := JStr (node_id (self st));
           "presence" := presence ]} in
      ws_send (JObj message) st.

(** What [connect] meets while it runs.  The background thread and the
    clock are not run here: [flag k] is the value of [self.connected] the
    calling thread finds at its [k]-th read of it, and [clock k] the value
    of [time.time()] at its [k]-th read, in seconds, as a rational.
    [app_error] and [thread_error] say whether building the [WebSocketApp]
    or starting the thread raises.  [background] is all the started thread
    has done by the time [connect] is over, as a change of the state the
    calling thread left: the flag it set, the lines it printed, the
    listeners it called ([_on_open], [_on_error] and the other handlers run
    on that thread). *)
Record connect_env : Type := {
  app_error : option exn;
  thread_error : option exn;
  flag : nat -> bool;
  clock : nat -> Q;
  background : state -> state
}.

Definition Qlt_bool (x y : Q) : bool := negb (Qle_bool y x).

(** The [while not self.connected and (time.time() - start_time) < timeout]
    loop; [n] counts the tests of its condition made so far.  The result is
    the number of reads of the flag made when the loop is left, [None] when
    [fuel] tests were not enough. *)
Fixpoint wait_loop (fuel : nat) (env : connect_env) (timeout : Z) (start_time : Q)
    (n : nat) : option nat :=
  match fuel with
  | O => None
  | S fuel' =>
      if negb (flag env n) && Qlt_bool (clock env (S n) - start_time) (inject_Z timeout)
      then wait_loop fuel' env timeout start_time (S n)
      else Some (S n)
  end.

Definition set_ws (h : option WebSocketApp) (o : KimDBWebSocket) : KimDBWebSocket :=
  {| url := url o; node_id := node_id o; ws := h; connected := connected o;
     callbacks := callbacks o |}.

Definition set_connected (b : bool) (o : KimDBWebSocket) : KimDBWebSocket :=
  {| url := url o; node_id := node_id o; ws := ws o; connected := b;
     callbacks := callbacks o |}.

(** The body of [connect]'s [try].  The calling thread itself writes the
    handle only; once the thread is started, the state [connect] ends in is
    that one as [background] changed it. *)
Definition connect_body (timeout : Z) (env : connect_env) (fuel : nat) (st : state)
  : option (outcome unit * state) :=
  match app_error env with
  | Some e => Some (Raise e, st)
  | None =>
      let st1 := set_self (set_ws (Some (App (url (self st)))) (self st)) st in
      match thread_error env with
      | Some e => Some (Raise e, st1)
      | None =>
          let start_time := clock env 0 in
          match wait_loop fuel env timeout start_time 0 with
          | None => None
          | Some reads =>
              let st2 := background env st1 in
              if negb (flag env reads) then
                Some (Raise (Exn TimeoutError
                               (JStr ("Connection timeout after " ++ str_of_int timeout
                                        ++ " seconds"))), st2)
              else Some (Return tt, st2)
          end
      end
  end.

Definition connect `{PyRuntime} (timeout : Z) (env : connect_env) (fuel : nat)
    (st : state) : option (outcome unit * state) :=
  match connect_body timeout env fuel st with
  | Some (Raise error, st') =>
      Some (Raise (Exn ConnectionError (JStr ("Failed to connect: " ++ str_of_exn error))),
            st')
  | r => r
  end.

(** *** The rest of the channel *)

Definition _on_error `{PyRuntime} (error : exn) : M state unit :=
  let* _ := print ("[KimDB] WebSocket error: " ++ str_of_exn error) in
  _emit "error" (JObj {[ "message" := JStr (str_of_exn error) ]}).

(** [_on_close]; [_stop_heartbeat] is [pass]. *)
Definition _on_close `{PyRuntime} : M state unit :=
  fun st =>
    (let* _ := print "[KimDB] WebSocket disconnected" in
     _emit "disconnected" (JObj ∅))
      (set_self (set_connected false (self st)) st).

Definition _ping `{PyRuntime} : M state unit :=
  fun st =>
    if connected (self st) then
      let message : gmap string value := {[ "type" := JStr "ping" ]} in
      try_except (ws_send (JObj message)) (fun _ => true)
        (fun error => print ("[KimDB] Ping failed: " ++ str_of_exn error)) st
    else (Return tt, st).

(** The channel with the other side of [ws.close()]: [closing n] is what
    the [n]-th call of [close] does ([None]: it returns; [Some e]: it
    raises [e]) and [closed] lists the handles [close] was called on. *)
Record channel : Type := {
  chan : state;
  closing : nat -> option exn;
  closed : list WebSocketApp
}.

Definition disconnect : M channel unit :=
  fun c =>
    let st := set_self (set_connected false (self (chan c))) (chan c) in
    match ws (self st) with
    | Some handle =>
        let c' := {| chan := st; closing := closing c; closed := closed c ++ [handle] |} in
        match closing c (length (closed c)) with
        | Some e => (Raise e, c')
        | None =>
            (Return tt,
             {| chan := set_self (set_ws None (self st)) st; closing := closing c;
                closed := closed c ++ [handle] |})
        end
    | None => (Return tt, {| chan := st; closing := closing c; closed := closed c |})
    end.

(** *** Vocabulary for the statements about the event channel *)

(** What one listener call leaves in [printed]. *)
Definition callback_log `{PyRuntime} (data : value) (cb : callback) : option string :=
  match cb_run cb data with
  | Some error => Some ("[KimDB] Callback error: " ++ str_of_exn error)%string
  | None => None
  end.

(** The state after the listeners [cbs] were registered one by one. *)
Definition register_all (event : string) (cbs : list callback) (st : state) : state :=
  foldl (fun st cb => (on event cb st).2) st cbs.

(** The names of the frames [_handle_message] dispatches. *)
Definition frame_types : list string :=
  ["subscribed"; "doc.synced"; "doc.updated"; "presence.changed"; "pong"; "error"]%string.

(** The state [st] with [p] for its printed lines. *)
Definition with_printed (p : list string) (st : state) : state :=
  {| self := self st; transport := transport st; sent := sent st;
     printed := p; invoked := invoked st |}.

End WebSocket.

(** ** Concrete clients, servers and channels *)

Module Demo.
Import Py.

(** A runtime to run the examples with: [repr] puts a string between
    single quotes, which is right for the plain strings of the examples,
    and is a placeholder elsewhere; [json.loads] knows the three JSON texts
    the examples use. *)
Definition runtime : PyRuntime :=
  {| py_repr := fun v => match v with
                         | JStr s => ("'" ++ s ++ "'")%string
                         | _ => "<repr>"%string
                         end;
     json_loads := fun s =>
       if String.eqb s "[]" then Return (JArr [])
       else if String.eqb s "{}" then Return (JObj ∅)
       else if String.eqb s "42" then Return (JInt 42)
       else Raise (Exn JSONDecodeError (JStr "Expecting value"));
     urljoin := fun base path => (base ++ path)%string |}.

(** [s] between double quotes. *)
Definition quoted (s : string) : string :=
  String "034"%char (s ++ String "034"%char EmptyString).

Definition client (retries : Z) : Client.KimDBClient :=
  {| Client.base_url := "http://localhost:40000"; Client.token := None;
     Client.api_key := None; Client.timeout := 30; Client.retries := retries |}.

(** 503 with an empty body. *)
Definition unavailable : Client.Response :=
  {| Client.ok := false; Client.text := EmptyString; Client.reason := "Service Unavailable";
     Client.status_code := 503;
     Client.json := Raise (Exn RequestException (JStr "Expecting value")) |}.

(** 404 whose body is the empty JSON object. *)
Definition not_found : Client.Response :=
  {| Client.ok := false; Client.text := "{}"; Client.reason := "Not Found";
     Client.status_code := 404; Client.json := Return (JObj ∅) |}.

(** 400 whose body is [{"error": "bad sql"}]. *)
Definition bad_request : Client.Response :=
  {| Client.ok := false;
     Client.text := "{" ++ quoted "error" ++ ": " ++ quoted "bad sql" ++ "}";
     Client.reason := "Bad Request"; Client.status_code := 400;
     Client.json := Return (JObj {[ "error" := JStr "bad sql" ]}) |}.

(** 200 whose body is the empty JSON object. *)
Definition healthy : Client.Response :=
  {| Client.ok := true; Client.text := "{}"; Client.reason := "OK";
     Client.status_code := 200; Client.json := Return (JObj ∅) |}.

(** A server that is unavailable for the first [n] calls and healthy after. *)
Definition flaky (n : nat) : nat -> Client.HttpRequest -> outcome Client.Response :=
  fun k _ => if (k <? n)%nat then Return unavailable else Return healthy.

Definition world_of (server : nat -> Client.HttpRequest -> outcome Client.Response)
  : Client.world :=
  {| Client.server := server; Client.calls := 0; Client.trace := [] |}.

(** A query with [limit] set to [0] and [sort] set to the empty string. *)
Definition zero_query : Client.DocumentQuery :=
  {| Client.limit := Some 0; Client.skip := None; Client.sort := Some EmptyString |}.

(** The rows [{"role": "admin", "count": 2}, {"role": "user", "count": 5}]. *)
Definition role_rows : list (gmap string value) :=
  [ {[ "role" := JStr "admin"; "count" := JInt 2 ]};
    {[ "role" := JStr "user"; "count" := JInt 5 ]} ].

Definition role_response : Client.Response :=
  {| Client.ok := true;
     Client.text :=
       "{" ++ quoted "rows" ++ ": [{" ++ quoted "role" ++ ": " ++ quoted "admin"
         ++ ", " ++ quoted "count" ++ ": 2}, {" ++ quoted "role" ++ ": "
         ++ quoted "user" ++ ", " ++ quoted "count" ++ ": 5}]}";
     Client.reason := "OK"; Client.status_code := 200;
     Client.json := Return (JObj {[ "rows" := JArr (JObj <$> role_rows) ]}) |}.

Definition group_by_sql : string :=
  "SELECT role, COUNT(*) as count FROM users GROUP BY role".

(** A channel as [__init__] leaves it, over a transport that takes every
    message. *)
Definition fresh : WebSocket.state :=
  {| WebSocket.self := WebSocket.__init__ "ws://localhost:40000/ws" (Some "node-1"%string) 0;
     WebSocket.transport := fun _ _ => None;
     WebSocket.sent := []; WebSocket.printed := []; WebSocket.invoked := [] |}.

(** Two listeners: the first raises, the second returns. *)
Definition raising_listener : WebSocket.callback :=
  {| WebSocket.cb_id := 1;
     WebSocket.cb_run := fun _ => Some (Exn ValueError (JStr "listener failed")) |}.

Definition quiet_listener : WebSocket.callback :=
  {| WebSocket.cb_id := 2; WebSocket.cb_run := fun _ => None |}.

(** The frame [{"type": "doc.updated", "docId": "d1", "success": true,
    "_version": 2}], parsed. *)
Definition updated_frame : gmap string value :=
  {[ "type" := JStr "doc.updated"; "docId" := JStr "d1"; "success" := JBool true;
     "_version" := JInt 2 ]}.

Definition updated_payload : value :=
  JObj {[ "docId" := JStr "d1"; "success" := JBool true; "version" := JInt 2 ]}.

(** A connection attempt on which the flag stays false, each reading of
    the clock coming a tenth of a second after the one before; the
    background thread changes nothing. *)
Definition never_connected : WebSocket.connect_env :=
  {| WebSocket.app_error := None; WebSocket.thread_error := None;
     WebSocket.flag := fun _ => false;
     WebSocket.clock := fun k => (Z.of_nat k # 10)%Q;
     WebSocket.background := fun st => st |}.

(** A connection attempt on which building the [WebSocketApp] fails. *)
Definition setup_failure : WebSocket.connect_env :=
  {| WebSocket.app_error := Some (Exn ValueError (JStr "scheme http is invalid"));
     WebSocket.thread_error := None;
     WebSocket.flag := fun _ => false;
     WebSocket.clock := fun k => (Z.of_nat k # 10)%Q;
     WebSocket.background := fun st => st |}.

(** 500 whose body is the JSON array [[]]. *)
Definition array_error : Client.Response :=
  {| Client.ok := false; Client.text := "[]"; Client.reason := "Internal Server Error";
     Client.status_code := 500; Client.json := Return (JArr []) |}.

(** The document [{"id": "a", "data": {"x": 1}, "_version": 3}]. *)
Definition document_fields : gmap string value :=
  {[ "id" := JStr "a"; "data" := JObj {[ "x" := JInt 1 ]}; "_version" := JInt 3 ]}.

Definition document_response : Client.Response :=
  {| Client.ok := true;
     Client.text :=
       "{" ++ quoted "id" ++ ": " ++ quoted "a" ++ ", " ++ quoted "data" ++ ": {"
         ++ quoted "x" ++ ": 1}, " ++ quoted "_version" ++ ": 3}";
     Client.reason := "OK"; Client.status_code := 200;
     Client.json := Return (JObj document_fields) |}.

(** The rows [[{"total": 7}]]. *)
Definition total_response : Client.Response :=
  {| Client.ok := true;
     Client.text := "{" ++ quoted "rows" ++ ": [{" ++ quoted "total" ++ ": 7}]}";
     Client.reason := "OK"; Client.status_code := 200;
     Client.json := Return (JObj {[ "rows" := JArr [JObj {[ "total" := JInt 7 ]}] ]}) |}.

(** Rows whose second one has no [role]. *)
Definition broken_rows_response : Client.Response :=
  {| Client.ok := true;
     Client.text :=
       "{" ++ quoted "rows" ++ ": [{" ++ quoted "role" ++ ": " ++ quoted "admin"
         ++ ", " ++ quoted "count" ++ ": 2}, {" ++ quoted "count" ++ ": 5}]}";
     Client.reason := "OK"; Client.status_code := 200;
     Client.json :=
       Return (JObj {[ "rows" := JArr [ JObj {[ "role" := JStr "admin"; "count" := JInt 2 ]};
                                         JObj {[ "count" := JInt 5 ]} ] ]}) |}.

(** A channel that is connected, with a handle. *)
Definition live : WebSocket.state :=
  {| WebSocket.self :=
       WebSocket.set_connected true
         (WebSocket.set_ws (Some (WebSocket.App "ws://localhost:40000/ws"))
            (WebSocket.self fresh));
     WebSocket.transport := fun _ _ => None;
     WebSocket.sent := []; WebSocket.printed := []; WebSocket.invoked := [] |}.

(** What [_on_open] has done when it has set the flag, printed its line
    and called the [connected] listeners. *)
Definition opened (st : WebSocket.state) : WebSocket.state :=
  (WebSocket._emit (H:=runtime) "connected" (JObj ∅)
     (WebSocket.print
        ("[KimDB] WebSocket connected (nodeId: "
           ++ WebSocket.node_id (WebSocket.self st) ++ ")")
        (WebSocket.set_self (WebSocket.set_connected true (WebSocket.self st)) st)).2).2.

(** A connection attempt on which the flag is found true from its third
    read on, the background thread having run [_on_open]. *)
Definition soon_connected : WebSocket.connect_env :=
  {| WebSocket.app_error := None; WebSocket.thread_error := None;
     WebSocket.flag := fun k => (2 <=? k)%nat;
     WebSocket.clock := fun k => (Z.of_nat k # 10)%Q;
     WebSocket.background := opened |}.

(** The connected channel with a [close] that returns. *)
Definition live_channel : WebSocket.channel :=
  {| WebSocket.chan := live; WebSocket.closing := fun _ => None;
     WebSocket.closed := [] |}.

End Demo.

(** * Properties *)

(** ** The retry loop of [_request] *)

Section RequestLoop.
Import Py Client.
Context (self : KimDBClient) (r : HttpRequest).

Lemma attempt_outcome_shift (w w' : world) (k : nat) :
  server w' = server w → calls w' = S (calls w) →
  attempt_outcome w' r k = attempt_outcome w r (S k).
Proof.
  intros Hs Hc. unfold attempt_outcome. rewrite Hs, Hc.
  by replace (S (calls w) + k)%nat with (calls w + S k)%nat by lia.
Qed.

Lemma attempt_outcome_0 (w : world) :
  attempt_outcome w r 0 = handle_response (server w (calls w) r).
Proof. unfold attempt_outcome. by rewrite Nat.add_0_r. Qed.

Lemma request_loop_spec (n : nat) :
  ∀ (a : nat) (last : option exn) (w : world),
    (a + n)%nat = Z.to_nat (retries self + 1) →
    loop_post r a n last w (request_loop self r (Z.of_nat <$> seq a n) last w).
Proof.
  induction n as [|n IH]; intros a last w Hn.
  - exists 0%nat. cbn. rewrite app_nil_r, Nat.add_0_r.
    repeat split; try done; try lia.
  - cbn [seq]. rewrite fmap_cons. cbn [request_loop session_request].
    pose proof (attempt_outcome_0 w) as H0.
    destruct (handle_response (server w (calls w) r)) as [v|error] eqn:Hres.
    { exists 1%nat. cbn. rewrite H0.
      repeat split; try done; try lia. }
    destruct (is_request_exception error) eqn:Hcatch.
    2:{ exists 1%nat. cbn. rewrite H0. cbn. rewrite Hcatch.
        repeat split; try done; try lia. }
    destruct (Z.ltb_spec (Z.of_nat a) (retries self)) as [Hlt|Hge].
    + (* another attempt follows: sleep, then go on *)
      set (w2 := (sleep (1 * (Z.of_nat a + 1)) _).2).
      destruct n as [|n']; [lia|].
      destruct (IH (S a) (Some error) w2 ltac:(lia))
        as (m & Hle & Hpos & Hcalls & Hserver & Htrace & _ & Hlast & Hbefore & Hstop).
      specialize (Hpos ltac:(lia)).
      assert (Hs2 : server w2 = server w) by done.
      assert (Hc2 : calls w2 = S (calls w)) by done.
      exists (S m). rewrite Hcalls, Hserver, Htrace, Hc2.
      destruct m as [|m']; [lia|].
      repeat split; try done; try lia.
      * subst w2. cbn [sleep snd trace backoff_trace].
        rewrite <- !app_assoc. cbn [app].
        do 4 f_equal. lia.
      * intros _. rewrite (Hlast ltac:(lia)).
        rewrite (attempt_outcome_shift w w2) by done.
        f_equal. lia.
      * intros k Hk. destruct k as [|k].
        { rewrite H0. cbn. done. }
        rewrite <- (attempt_outcome_shift w w2) by done.
        apply Hbefore. lia.
      * intros Hm. specialize (Hstop ltac:(lia)).
        rewrite (attempt_outcome_shift w w2) in Hstop by done.
        rewrite <- Hstop. f_equal. f_equal. lia.
    + (* the last attempt: no sleep, the loop ends *)
      destruct n as [|n']; [|lia].
      exists 1%nat. cbn. rewrite H0. cbn.
      repeat split; try done; try lia.
Qed.

End RequestLoop.

(** ** [_request]: attempts, result and backoff *)

Section Request.
Import Py Client.
Context `{PyRuntime}.
Context (self : KimDBClient) (method path : string)
        (data : option value) (params : option (gmap string value)).

Lemma request_spec (w : world) :
  loop_post (request_of self method path data params)
    0 (Z.to_nat (retries self + 1)) None w
    (_request self method path data params w).
Proof. unfold _request, range. by apply request_loop_spec. Qed.

End Request.

(** The shape of the events of one call: requests at the even places,
    sleeps at the odd ones. *)
Section Backoff.
Import Py Client.
Context (r : HttpRequest).

Lemma backoff_trace_head (a m : nat) :
  (0 < m)%nat → backoff_trace r a m !! 0%nat = Some (EvRequest r).
Proof. destruct m as [|[|m]]; [lia|done|done]. Qed.

Lemma backoff_trace_sleeps (m : nat) :
  ∀ a, sleeps (backoff_trace r a m) = Z.of_nat <$> seq (S a) (m - 1).
Proof.
  induction m as [|m IH]; intros a; [done|].
  destruct m as [|m]; [done|].
  change (sleeps (backoff_trace r a (S (S m))))
    with (Z.of_nat (S a) :: sleeps (backoff_trace r (S a) (S m))).
  rewrite IH. by replace (S (S m) - 1)%nat with (S (S m - 1)) by lia.
Qed.

Lemma backoff_trace_between (m : nat) :
  ∀ a i s,
    backoff_trace r a m !! i = Some (EvSleep s) →
    (0 < i)%nat
    ∧ backoff_trace r a m !! (i - 1)%nat = Some (EvRequest r)
    ∧ backoff_trace r a m !! S i = Some (EvRequest r).
Proof.
  induction m as [|m IH]; intros a i s Hi; [done|].
  destruct m as [|m].
  { by destruct i as [|[|i]]. }
  change (backoff_trace r a (S (S m)))
    with (EvRequest r :: EvSleep (Z.of_nat (S a)) :: backoff_trace r (S a) (S m)) in *.
  destruct i as [|[|i]]; [done| |].
  - split; [lia|]. split; [done|].
    apply (backoff_trace_head (S a) (S m)). lia.
  - destruct (IH (S a) i s Hi) as (Hpos & Hprev & Hnext).
    split; [lia|]. split; [|exact Hnext].
    replace (S (S i) - 1)%nat with (S (S (i - 1))) by lia. exact Hprev.
Qed.

Lemma backoff_trace_last (a m : nat) (s : Z) :
  last (backoff_trace r a m) ≠ Some (EvSleep s).
Proof.
  rewrite last_lookup. intros Hlast.
  destruct (backoff_trace_between m a _ s Hlast) as (Hpos & _ & Hnext).
  apply lookup_lt_Some in Hnext. lia.
Qed.

Lemma backoff_trace_requests (m : nat) :
  ∀ a, requests (backoff_trace r a m) = m.
Proof.
  induction m as [|m IH]; intros a; [done|].
  destruct m as [|m]; [done|].
  change (backoff_trace r a (S (S m)))
    with (EvRequest r :: EvSleep (Z.of_nat (S a)) :: backoff_trace r (S a) (S m)).
  unfold requests in *. rewrite filter_cons_True by done.
  rewrite filter_cons_False by done. cbn [length]. by rewrite IH.
Qed.

End Backoff.

Section RequestClaims.
Import Py Client.
Context `{PyRuntime}.

(** C1, as amended.  [_request] makes at most [max 0 (retries + 1)] calls
    of [session.request].  When [retries >= 0] it makes at least one, and
    what it returns or raises is what the last attempt it made returned or
    raised: on exhaustion, the last error.  When [retries < 0] it makes no
    attempt at all and raises the generic unknown error, which is the only
    way that error is produced by the final [raise]. *)
Theorem request_attempts (self : KimDBClient) (method path : string)
    (data : option value) (params : option (gmap string value)) (w : world) :
  let r := request_of self method path data params in
  let R := _request self method path data params w in
  let made := (calls R.2 - calls w)%nat in
  Z.of_nat made ≤ Z.max 0 (retries self + 1)
  ∧ requests (trace R.2) = (requests (trace w) + made)%nat
  ∧ (0 ≤ retries self → (1 ≤ made)%nat ∧ R.1 = attempt_outcome w r (made - 1))
  ∧ (retries self < 0 → made = 0%nat ∧ R.1 = Raise unknown_error)
  ∧ (made = 0%nat → retries self < 0).
Proof.
  intros r R made.
  destruct (request_spec self method path data params w)
    as (m & Hle & Hpos & Hcalls & _ & Htrace & Hnone & Hlast & _).
  fold R in Hcalls, Htrace, Hnone, Hlast.
  assert (Hmade : made = m) by (unfold made; lia).
  rewrite Hmade. repeat split.
  - lia.
  - rewrite Htrace. unfold requests. rewrite filter_app, length_app.
    f_equal. apply backoff_trace_requests.
  - lia.
  - apply Hlast. lia.
  - lia.
  - apply Hnone. lia.
  - intros ->. lia.
Qed.


(** C6.  The events one call of [_request] adds to the trace are those of
    [m <= retries + 1] attempts with backoff: every sleep stands between
    two requests, the last event is never a sleep, and the sleeps are
    [1, 2, ..., m - 1] time units in this order, the [k]-th retry being
    preceded by a sleep of [k * 1]. *)
Theorem request_backoff (self : KimDBClient) (method path : string)
    (data : option value) (params : option (gmap string value)) (w : world) :
  let r := request_of self method path data params in
  let R := _request self method path data params w in
  ∃ (m : nat) (added : list event),
    trace R.2 = trace w ++ added
    ∧ added = backoff_trace r 0 m
    ∧ (m ≤ Z.to_nat (retries self + 1))%nat
    ∧ requests added = m
    ∧ sleeps added = (fun k => Z.of_nat k * 1) <$> seq 1 (m - 1)
    ∧ (∀ s, last added ≠ Some (EvSleep s))
    ∧ (∀ i s, added !! i = Some (EvSleep s) →
         (0 < i)%nat ∧ added !! (i - 1)%nat = Some (EvRequest r)
         ∧ added !! S i = Some (EvRequest r)).
Proof.
  intros r R.
  destruct (request_spec self method path data params w)
    as (m & Hle & _ & _ & _ & Htrace & _).
  exists m, (backoff_trace r 0 m). repeat split; try done.
  - apply backoff_trace_requests.
  - rewrite backoff_trace_sleeps. apply list_fmap_ext. intros; lia.
  - apply backoff_trace_last.
  - by eapply backoff_trace_between.
  - by eapply backoff_trace_between.
  - by eapply backoff_trace_between.
Qed.

End RequestClaims.

(** ** The error built from a non-success response *)

Section ResponseError.
Import Py Client.

(** C4, as amended.  For a non-success response whose body is empty or is
    a JSON object, the [RequestException] of the attempt carries the
    body's [error] field when the body is an object that has it, the
    reason phrase when the body is empty, and the text [HTTP <status>]
    when the body is an object without an [error] field. *)
Theorem error_of_failed_response (response : Response) :
  ok response = false →
  (text response = EmptyString →
     handle_response (Return response)
     = Raise (Exn RequestException (JStr (reason response))))
  ∧ (∀ (m : gmap string value) (v : value),
       text response ≠ EmptyString → json response = Return (JObj m) → m !! "error" = Some v →
       handle_response (Return response) = Raise (Exn RequestException v))
  ∧ (∀ m : gmap string value,
       text response ≠ EmptyString → json response = Return (JObj m) → m !! "error" = None →
       handle_response (Return response)
       = Raise (Exn RequestException
                  (JStr ("HTTP " ++ str_of_int (status_code response))))).
Proof.
  intros Hok. unfold handle_response. cbn. rewrite Hok. cbn.
  split; [|split].
  - intros ->. cbn. by rewrite lookup_singleton_eq.
  - intros m v Htext Hjson Herr.
    apply String.eqb_neq in Htext. rewrite Htext, Hjson. cbn. by rewrite Herr.
  - intros m Htext Hjson Herr.
    apply String.eqb_neq in Htext. rewrite Htext, Hjson. cbn. by rewrite Herr.
Qed.

(** X4.  A non-success response whose body is not empty and is not a JSON
    object builds no [RequestException]: when [json()] raises, its
    exception comes out of the attempt, and when the body is another JSON
    value, the [AttributeError] of [get] does. *)
Lemma failed_response_other_body (response : Response) :
  ok response = false → text response ≠ EmptyString →
  (∀ e, json response = Raise e → handle_response (Return response) = Raise e)
  ∧ (∀ v, json response = Return v → (∀ m, v ≠ JObj m) →
       handle_response (Return response) = Raise (no_attribute v "get")).
Proof.
  intros Hok Htext. apply String.eqb_neq in Htext.
  unfold handle_response. cbn. rewrite Hok, Htext. cbn. split.
  - by intros e ->.
  - intros v -> Hv. destruct v; try done. by destruct (Hv m).
Qed.

End ResponseError.

(** ** The query parameters of [get_collection] *)

Section GetCollection.
Import Py Client.
Context `{PyRuntime}.

(** C5, as amended.  A field of the query is put in the request's [params]
    exactly when it is set to a value Python takes for true: an integer
    other than [0] for [limit] and [skip], a string other than the empty
    one for [sort].  A field that is [None], [0] or [''] is left out, and
    the request carries these [params] at every attempt. *)
Theorem get_collection_params_included (self : KimDBClient) (collection : string)
    (q : DocumentQuery) (w : world) :
  let p := get_collection_params (Some q) in
  p !! "limit" = (match limit q with
                  | Some z => if z =? 0 then None else Some (JInt z)
                  | None => None
                  end)
  ∧ p !! "skip" = (match skip q with
                   | Some z => if z =? 0 then None else Some (JInt z)
                   | None => None
                   end)
  ∧ p !! "sort" = (match sort q with
                   | Some s => if String.eqb s EmptyString then None else Some (JStr s)
                   | None => None
                   end)
  ∧ (∃ m : nat,
       trace (get_collection self collection (Some q) w).2
       = trace w
           ++ backoff_trace
                (request_of self "GET" ("/api/c/" ++ collection) None (Some p)) 0 m).
Proof.
  intros p. subst p. unfold get_collection_params.
  destruct q as [l sk so]. cbn [limit skip sort].
  repeat split.
  - destruct l as [z|], sk as [z'|], so as [s|]; cbn;
      repeat (case_match; cbn); by simplify_map_eq.
  - destruct l as [z|], sk as [z'|], so as [s|]; cbn;
      repeat (case_match; cbn); by simplify_map_eq.
  - destruct l as [z|], sk as [z'|], so as [s|]; cbn;
      repeat (case_match; cbn); by simplify_map_eq.
  - unfold get_collection.
    destruct (request_spec self "GET" ("/api/c/" ++ collection) None
                (Some (get_collection_params
                         (Some {| limit := l; skip := sk; sort := so |}))) w)
      as (m & _ & _ & _ & _ & Htrace & _).
    by exists m.
Qed.

End GetCollection.

(** ** [group_by] *)

Section GroupBy.
Import Py Client.
Context `{PyRuntime}.

Lemma group_by_rows_fold (field : string) (rows : list (gmap string value)) :
  Forall (fun row => is_Some (row !! field)) rows →
  ∀ result,
    group_by_rows field (JObj <$> rows) result
    = Return (foldl (fun result row =>
                       <[py_str (default JNull (row !! field))
                           := default (JInt 0) (row !! "count")]> result)
                    result rows).
Proof.
  induction 1 as [|row rows [key Hkey] _ IH]; intros result; [done|].
  rewrite fmap_cons. cbn [group_by_rows group_by_step get and_then foldl].
  rewrite Hkey. cbn [and_then default]. rewrite IH.
  by destruct (row !! "count").
Qed.

Lemma group_by_fold_snoc (field : string) (rows : list (gmap string value))
    (row : gmap string value) :
  group_by_fold field (rows ++ [row])
  = <[py_str (default JNull (row !! field)) := default (JInt 0) (row !! "count")]>
      (group_by_fold field rows).
Proof. unfold group_by_fold. by rewrite foldl_app. Qed.

Lemma group_by_fold_last_wins (field : string) (later : list (gmap string value)) :
  ∀ (earlier : list (gmap string value)) (row : gmap string value),
    Forall (fun row' => py_str (default JNull (row' !! field))
                        ≠ py_str (default JNull (row !! field))) later →
    group_by_fold field (earlier ++ row :: later) !! py_str (default JNull (row !! field))
    = Some (default (JInt 0) (row !! "count")).
Proof.
  induction later as [|row' later IH] using rev_ind; intros earlier row Hlater.
  - rewrite group_by_fold_snoc. apply lookup_insert_eq.
  - apply Forall_app in Hlater as [Hlater Hrow'].
    rewrite Forall_singleton in Hrow'.
    replace (earlier ++ row :: later ++ [row'])
      with ((earlier ++ row :: later) ++ [row']) by by rewrite <- app_assoc.
    rewrite group_by_fold_snoc, lookup_insert_ne by done. by apply IH.
Qed.

(** C9.  When [query] returns a response whose [rows] are objects that all
    contain the grouped field, [group_by] returns the left-to-right fold
    that maps [str(row[field])] to the row's count ([0] without one); a
    key is therefore given the count of the last row that has it. *)
Theorem group_by_is_fold (self : KimDBClient) (collection field : string)
    (w w' : world) (response : gmap string value) (rows : list (gmap string value)) :
  query self
    ("SELECT " ++ field ++ ", COUNT(*) as count FROM " ++ collection
       ++ " GROUP BY " ++ field) collection None w
  = (Return (JObj response), w') →
  response !! "rows" = Some (JArr (JObj <$> rows)) →
  Forall (fun row => is_Some (row !! field)) rows →
  group_by self collection field w = (Return (group_by_fold field rows), w')
  ∧ (∀ earlier row later,
       rows = earlier ++ row :: later →
       Forall (fun row' => py_str (default JNull (row' !! field))
                           ≠ py_str (default JNull (row !! field))) later →
       group_by_fold field rows !! py_str (default JNull (row !! field))
       = Some (default (JInt 0) (row !! "count"))).
Proof.
  intros Hquery Hrows Hfield. split.
  - unfold group_by, bind, lift. rewrite Hquery. cbn [get and_then].
    rewrite Hrows. cbn [iter and_then].
    by rewrite group_by_rows_fold.
  - intros earlier row later -> Hlater. by apply group_by_fold_last_wins.
Qed.

End GroupBy.

(** ** The event channel *)

Section Channel.
Import Py WebSocket.
Context `{PyRuntime}.

(** C7.  With the connected flag false, each of the six outbound actions
    raises the not-connected [RuntimeError] and gives back the state it was
    given: nothing is handed to [ws.send], and the object, the printed
    lines and the listener calls are as before. *)
Theorem outbound_requires_connection (st : state) (collection doc_id : string)
    (data presence : value) :
  connected (self st) = false →
  subscribe collection st = (Raise not_connected, st)
  ∧ subscribe_document collection doc_id st = (Raise not_connected, st)
  ∧ update_document collection doc_id data st = (Raise not_connected, st)
  ∧ undo collection doc_id st = (Raise not_connected, st)
  ∧ redo collection doc_id st = (Raise not_connected, st)
  ∧ update_presence collection doc_id presence st = (Raise not_connected, st).
Proof.
  intros Hflag.
  unfold subscribe, subscribe_document, update_document, undo, redo, update_presence.
  rewrite Hflag. by cbn.
Qed.

Lemma emit_loop_spec (data : value) (listeners : list callback) :
  ∀ st,
    emit_loop listeners data st
    = (Return tt,
       {| self := self st; transport := transport st; sent := sent st;
          printed := printed st ++ omap (callback_log data) listeners;
          invoked := invoked st ++ ((fun cb => (cb_id cb, data)) <$> listeners) |}).
Proof.
  induction listeners as [|cb rest IH]; intros st.
  - cbn. rewrite !app_nil_r. by destruct st.
  - cbn [emit_loop]. unfold bind, try_except, call, print, callback_log in *.
    cbn [omap list_omap fmap list_fmap].
    destruct (cb_run cb data) as [error|]; rewrite IH; cbn;
      by rewrite <- !app_assoc.
Qed.

Lemma emit_returns (event : string) (data : value) (st : state) :
  (_emit event data st).1 = Return tt ∧ self (_emit event data st).2 = self st
  ∧ sent (_emit event data st).2 = sent st.
Proof.
  unfold _emit. destruct (callbacks (self st) !! event); [|done].
  by rewrite emit_loop_spec.
Qed.

(** Registering with [on] appends to the listeners of the event. *)
Lemma on_appends (event : string) (cb : callback) (st : state) :
  callbacks (self (on event cb st).2) !! event
  = Some (default [] (callbacks (self st) !! event) ++ [cb]).
Proof.
  unfold on. cbn.
  destruct (callbacks (self st) !! event) as [l|] eqn:Hl.
  - by rewrite lookup_alter_eq, Hl.
  - by rewrite lookup_alter_eq, lookup_insert_eq.
Qed.

Lemma register_all_lookup (event : string) (cbs : list callback) :
  ∀ st,
    cbs ≠ [] →
    callbacks (self (register_all event cbs st)) !! event
    = Some (default [] (callbacks (self st) !! event) ++ cbs).
Proof.
  induction cbs as [|cb cbs IH] using rev_ind; intros st Hne; [done|].
  unfold register_all in *. rewrite foldl_app. cbn [foldl].
  rewrite on_appends. destruct cbs as [|cb' cbs'].
  - done.
  - rewrite IH by done. cbn. by rewrite <- app_assoc.
Qed.

Lemma register_all_frame (event : string) (cbs : list callback) :
  ∀ st,
    sent (register_all event cbs st) = sent st
    ∧ printed (register_all event cbs st) = printed st
    ∧ invoked (register_all event cbs st) = invoked st.
Proof.
  induction cbs as [|cb cbs IH] using rev_ind; intros st; [done|].
  unfold register_all in *. rewrite foldl_app. cbn [foldl].
  destruct (IH st) as (Hs & Hp & Hi). by rewrite <- Hs, <- Hp, <- Hi.
Qed.

(** C8.  Take any state, register the listeners [cbs] on [doc.updated] one
    after the other, then handle a frame whose [type] is [doc.updated].
    The handler returns, and the listener calls it adds are, in order, the
    listeners that were there before followed by [cbs], each called with
    [{docId, success, version}], [version] being the frame's [_version];
    this holds whatever the listeners do, a raising listener leaving only
    a printed line. *)
Theorem doc_updated_dispatch (frame : gmap string value) (st : state)
    (cbs : list callback) :
  frame !! "type" = Some (JStr "doc.updated") →
  let payload :=
    JObj {[ "docId" := default JNull (frame !! "docId");
            "success" := default JNull (frame !! "success");
            "version" := default JNull (frame !! "_version") ]} in
  let before := default [] (callbacks (self st) !! "doc.updated") in
  let R := _handle_message (JObj frame) (register_all "doc.updated" cbs st) in
  R.1 = Return tt
  ∧ invoked R.2 = invoked st ++ ((fun cb => (cb_id cb, payload)) <$> (before ++ cbs))
  ∧ printed R.2 = printed st ++ omap (callback_log payload) (before ++ cbs)
  ∧ sent R.2 = sent st.
Proof.
  intros Htype payload before R.
  assert (Hlisteners :
    ∃ l, callbacks (self (register_all "doc.updated" cbs st)) !! "doc.updated" = Some l
         ∧ (l = before ++ cbs ∨ (l = [] ∧ before ++ cbs = []))
         ∨ callbacks (self (register_all "doc.updated" cbs st)) !! "doc.updated" = None
           ∧ before ++ cbs = []).
  { destruct cbs as [|cb cbs'].
    - cbn. subst before.
      destruct (callbacks (self st) !! "doc.updated") as [l|]; cbn.
      + exists l. left. split; [done|]. left. by rewrite app_nil_r.
      + exists []. by right.
    - exists (before ++ cb :: cbs'). left. split; [|by left].
      by rewrite register_all_lookup. }
  destruct (register_all_frame "doc.updated" cbs st) as (Hs & Hp & Hi).
  subst R. unfold _handle_message, bind, lift. cbn [get].
  rewrite Htype. cbn [eq_str String.eqb Ascii.eqb Bool.eqb].
  fold payload. unfold _emit.
  destruct Hlisteners as (l & [[Hl [-> | [-> Hnil]]] | [Hl Hnil]]); rewrite Hl.
  - rewrite emit_loop_spec. cbn. by rewrite Hs, Hp, Hi.
  - rewrite Hnil. cbn. by rewrite !app_nil_r.
  - rewrite Hnil. cbn. by rewrite !app_nil_r.
Qed.

Lemma handle_message_object_returns (frame : gmap string value) (st : state) :
  (_handle_message (JObj frame) st).1 = Return tt.
Proof.
  unfold _handle_message, bind, lift. cbn [get].
  repeat (case_match; try done); by apply emit_returns.
Qed.

(** C10.  [_on_message] returns on a text that [json.loads] rejects (the
    frame is logged and dropped, nothing else changes) and on a text that
    parses to a JSON object.  On a text that parses to any other JSON
    value the [AttributeError] of [message.get] comes out of the handler:
    the [except] clause catches [JSONDecodeError] only. *)
Theorem on_message_total_on_objects_only (message : string) (st : state) :
  (∀ error,
      json_loads message = Raise error → is_json_decode_error error = true →
      _on_message message st
      = print ("[KimDB] Failed to parse message: " ++ str_of_exn error) st)
  ∧ (∀ frame : gmap string value,
       json_loads message = Return (JObj frame) →
       (_on_message message st).1 = Return tt)
  ∧ (∀ v : value,
       json_loads message = Return v → (∀ frame, v ≠ JObj frame) →
       _on_message message st = (Raise (no_attribute v "get"), st)
       ∧ cls (no_attribute v "get") = AttributeError).
Proof.
  unfold _on_message, try_except. split; [|split].
  - intros error Hloads Hcls.
    unfold bind at 1, lift at 1. rewrite Hloads. cbn. by rewrite Hcls.
  - intros frame Hloads.
    unfold bind at 1, lift at 1. rewrite Hloads.
    pose proof (handle_message_object_returns frame st) as Hret.
    destruct (_handle_message (JObj frame) st) as [[[]|e] st']; [done|].
    cbn in Hret. done.
  - intros v Hloads Hv. split; [|done].
    unfold bind at 1, lift at 1. rewrite Hloads.
    destruct v; try (by cbn); by destruct (Hv m).
Qed.

(** X23.  Whatever [connect] raises is a [ConnectionError]: neither the
    [TimeoutError] of its [try] block nor the exception of a failed set-up
    leaves it in its own class. *)
Lemma connect_raises_only_connection_error (timeout : Z) (env : connect_env)
    (fuel : nat) (st st' : state) (e : exn) :
  connect timeout env fuel st = Some (Raise e, st') → cls e = ConnectionError.
Proof.
  unfold connect.
  destruct (connect_body timeout env fuel st) as [[[[]|e'] st'']|]; [done| |done].
  by intros [= <- _].
Qed.

Lemma wait_loop_step (fuel : nat) (env : connect_env) (timeout : Z) (start_time : Q)
    (n : nat) :
  wait_loop (S fuel) env timeout start_time n
  = if negb (flag env n) && Qlt_bool (clock env (S n) - start_time) (inject_Z timeout)
    then wait_loop fuel env timeout start_time (S n)
    else Some (S n).
Proof. done. Qed.

(** The wait is over once a reading of the clock is [timeout] or more past
    the start: if that is so at reading [S n], then [S n] tests of the
    condition are enough fuel. *)
Lemma wait_loop_terminates (env : connect_env) (timeout : Z) (start_time : Q) (n : nat) :
  Qlt_bool (clock env (S n) - start_time) (inject_Z timeout) = false →
  ∀ d k, (k + d)%nat = n →
    ∃ reads, wait_loop (S d) env timeout start_time k = Some reads.
Proof.
  intros Hlate d. induction d as [|d IH]; intros k Hk; rewrite wait_loop_step.
  - replace k with n by lia. rewrite Hlate, andb_false_r. by eexists.
  - destruct (negb (flag env k) && _); [|by eexists].
    apply IH. lia.
Qed.

(** C3, what the code does.  When building the channel succeeds, the flag
    is never found true and the clock passes the timeout, [connect] comes
    back with an exception of class [ConnectionError] whose text wraps the
    timeout message: the [TimeoutError] raised inside the [try] block is
    caught by the [except Exception] clause that also wraps set-up
    failures, so no error of class [TimeoutError] reaches the caller. *)
Theorem connect_timeout_raises_connection_error (timeout : Z) (env : connect_env)
    (n : nat) (st : state) :
  app_error env = None → thread_error env = None →
  (∀ k, flag env k = false) →
  Qlt_bool (clock env (S n) - clock env 0) (inject_Z timeout) = false →
  ∃ st',
    connect timeout env (S n) st
    = Some (Raise (Exn ConnectionError
                     (JStr ("Failed to connect: Connection timeout after "
                              ++ str_of_int timeout ++ " seconds"))), st').
Proof.
  intros Happ Hthread Hflag Hlate.
  destruct (wait_loop_terminates env timeout (clock env 0) n Hlate n 0%nat eq_refl)
    as [reads Hreads].
  unfold connect, connect_body. rewrite Happ, Hthread, Hreads, Hflag. cbn.
  by eexists.
Qed.

(** A set-up failure comes back in the same class. *)
Lemma connect_setup_failure (timeout : Z) (env : connect_env) (fuel : nat)
    (st : state) (e : exn) :
  app_error env = Some e →
  connect timeout env fuel st
  = Some (Raise (Exn ConnectionError (JStr ("Failed to connect: " ++ str_of_exn e))), st).
Proof. intros Happ. unfold connect, connect_body. by rewrite Happ. Qed.

End Channel.

(** ** The statements at concrete inputs *)

Section Concrete.
Import Py Client WebSocket.

(** C1, the claim as stated fails: a client configured with [retries = -1]
    makes no attempt at all. *)
Lemma request_negative_retries_makes_no_attempt :
  calls (_request (H:=Demo.runtime) (Demo.client (-1)) "GET" "/health" None None
           (Demo.world_of (Demo.flaky 0))).2 = 0%nat
  ∧ ¬ (1 ≤ calls (_request (H:=Demo.runtime) (Demo.client (-1)) "GET" "/health" None None
                    (Demo.world_of (Demo.flaky 0))).2)%nat
  ∧ (_request (H:=Demo.runtime) (Demo.client (-1)) "GET" "/health" None None
       (Demo.world_of (Demo.flaky 0))).1 = Raise unknown_error.
Proof. split; [reflexivity|]. split; [change (¬ (1 ≤ 0)%nat); lia|reflexivity]. Qed.

(** With [retries = -2] the bound [retries + 1] is negative and so below
    the number of attempts, which is [0]. *)
Example request_attempts_above_negative_bound :
  ¬ (Z.of_nat (calls (_request (H:=Demo.runtime) (Demo.client (-2)) "GET" "/health"
                        None None (Demo.world_of (Demo.flaky 0))).2)
     ≤ Client.retries (Demo.client (-2)) + 1).
Proof. change (¬ (0 ≤ -2 + 1)). lia. Qed.


Example request_backoff_example :
  trace (_request (H:=Demo.runtime) (Demo.client 3) "GET" "/health" None None
           (Demo.world_of (Demo.flaky 4))).2
  = let r := request_of (H:=Demo.runtime) (Demo.client 3) "GET" "/health" None None in
    [EvRequest r; EvSleep 1; EvRequest r; EvSleep 2; EvRequest r; EvSleep 3; EvRequest r].
Proof. reflexivity. Qed.

(** C4, the claim as stated fails: a 404 whose body is a JSON object
    without an [error] field gives an error that carries [HTTP 404], not
    the reason phrase [Not Found]. *)
Lemma failed_response_without_error_field :
  handle_response (Return Demo.not_found)
  = Raise (Exn RequestException (JStr "HTTP 404"))
  ∧ handle_response (Return Demo.not_found)
    ≠ Raise (Exn RequestException (JStr (reason Demo.not_found))).
Proof. split; [reflexivity|discriminate]. Qed.

Lemma error_of_failed_response_witness :
  handle_response (Return Demo.unavailable)
  = Raise (Exn RequestException (JStr "Service Unavailable"))
  ∧ handle_response (Return Demo.bad_request)
    = Raise (Exn RequestException (JStr "bad sql")).
Proof.
  split.
  - apply (proj1 (error_of_failed_response Demo.unavailable eq_refl)). reflexivity.
  - apply (proj1 (proj2 (error_of_failed_response Demo.bad_request eq_refl))
             {[ "error" := JStr "bad sql" ]});
      [discriminate|reflexivity|reflexivity].
Defined.

(** C5, the claim as stated fails: [limit] explicitly set to [0] and
    [sort] explicitly set to the empty string are not [None], and neither
    is put in the query parameters. *)
Lemma get_collection_drops_zero_limit :
  limit Demo.zero_query ≠ None
  ∧ get_collection_params (Some Demo.zero_query) !! "limit" = None
  ∧ sort Demo.zero_query ≠ None
  ∧ get_collection_params (Some Demo.zero_query) !! "sort" = None.
Proof. repeat split; done. Qed.

(** The rows of the specification's example give [{"admin": 2, "user": 5}]. *)
Lemma group_by_is_fold_witness :
  group_by (H:=Demo.runtime) (Demo.client 3) "users" "role"
    (Demo.world_of (fun _ _ => Return Demo.role_response))
  = (Return (group_by_fold (H:=Demo.runtime) "role" Demo.role_rows),
     (query (H:=Demo.runtime) (Demo.client 3) Demo.group_by_sql "users" None
        (Demo.world_of (fun _ _ => Return Demo.role_response))).2).
Proof.
  apply (proj1 (group_by_is_fold (H:=Demo.runtime) (Demo.client 3) "users" "role"
                  (Demo.world_of (fun _ _ => Return Demo.role_response))
                  (query (H:=Demo.runtime) (Demo.client 3) Demo.group_by_sql "users" None
                     (Demo.world_of (fun _ _ => Return Demo.role_response))).2
                  {[ "rows" := JArr (JObj <$> Demo.role_rows) ]} Demo.role_rows
                  eq_refl eq_refl
                  ltac:(repeat constructor; eexists; reflexivity))).
Defined.

Example group_by_example :
  group_by_fold (H:=Demo.runtime) "role" Demo.role_rows
  = {[ "admin" := JInt 2; "user" := JInt 5 ]}.
Proof. vm_compute. reflexivity. Qed.

(** An integer key [1] and a string key ["1"] meet in one entry, which
    keeps the count of the later row. *)
Example group_by_duplicate_key :
  group_by_fold (H:=Demo.runtime) "id"
    [ {[ "id" := JInt 1; "count" := JInt 7 ]}; {[ "id" := JStr "1" ]} ]
  = {[ "1" := JInt 0 ]}.
Proof. vm_compute. reflexivity. Qed.

(** A channel that never connected refuses the six actions. *)
Lemma outbound_requires_connection_witness :
  subscribe "users" Demo.fresh = (Raise not_connected, Demo.fresh)
  ∧ subscribe_document "users" "d1" Demo.fresh = (Raise not_connected, Demo.fresh)
  ∧ update_document "users" "d1" (JObj ∅) Demo.fresh = (Raise not_connected, Demo.fresh)
  ∧ undo "users" "d1" Demo.fresh = (Raise not_connected, Demo.fresh)
  ∧ redo "users" "d1" Demo.fresh = (Raise not_connected, Demo.fresh)
  ∧ update_presence "users" "d1" JNull Demo.fresh = (Raise not_connected, Demo.fresh).
Proof.
  apply (outbound_requires_connection Demo.fresh "users" "d1" (JObj ∅) JNull).
  reflexivity.
Defined.

(** The specification's example: two listeners on [doc.updated], the
    first of which raises, and one frame. *)
Lemma doc_updated_dispatch_witness :
  let R := _handle_message (H:=Demo.runtime) (JObj Demo.updated_frame)
             (register_all "doc.updated" [Demo.raising_listener; Demo.quiet_listener]
                Demo.fresh) in
  R.1 = Return tt
  ∧ invoked R.2 = [(1%nat, Demo.updated_payload); (2%nat, Demo.updated_payload)]
  ∧ printed R.2 = ["[KimDB] Callback error: listener failed"%string]
  ∧ sent R.2 = [].
Proof.
  apply (doc_updated_dispatch (H:=Demo.runtime) Demo.updated_frame Demo.fresh
           [Demo.raising_listener; Demo.quiet_listener]).
  reflexivity.
Defined.

Example on_message_examples :
  (_on_message (H:=Demo.runtime) "not json" Demo.fresh).1 = Return tt
  ∧ (_on_message (H:=Demo.runtime) "{}" Demo.fresh).1 = Return tt
  ∧ (_on_message (H:=Demo.runtime) "[]" Demo.fresh).1
    = Raise (Exn AttributeError (JStr "'list' object has no attribute 'get'"))
  ∧ (_on_message (H:=Demo.runtime) "42" Demo.fresh).1
    = Raise (Exn AttributeError (JStr "'int' object has no attribute 'get'")).
Proof. repeat split; reflexivity. Qed.

(** C3 at a concrete input: a timeout of 10 seconds, a flag that stays
    false and a clock read every tenth of a second. *)
Lemma connect_timeout_witness :
  ∃ st',
    connect (H:=Demo.runtime) 10 Demo.never_connected 100 Demo.fresh
    = Some (Raise (Exn ConnectionError
                     (JStr "Failed to connect: Connection timeout after 10 seconds")),
            st').
Proof.
  apply (connect_timeout_raises_connection_error (H:=Demo.runtime) 10
           Demo.never_connected 99 Demo.fresh);
    [reflexivity|reflexivity|intros k; reflexivity|reflexivity].
Defined.

Example connect_setup_failure_example :
  connect (H:=Demo.runtime) 10 Demo.setup_failure 100 Demo.fresh
  = Some (Raise (Exn ConnectionError (JStr "Failed to connect: scheme http is invalid")),
          Demo.fresh).
Proof. reflexivity. Qed.

End Concrete.

(** * Further properties of the client *)

Section RequestMore.
Import Py Client.
Context `{PyRuntime}.

(** X1.  [_request] stops at the first attempt that does not fail
    transiently: when the attempts before attempt [k] raise a
    [RequestException] and attempt [k] returns or raises anything else,
    with [k <= retries], the call gives what attempt [k] gave after exactly
    [k + 1] requests, with the sleeps [1 .. k] between them.  An exception
    that is not a [RequestException] is thus never retried. *)
Theorem request_stops_at_first_settled_attempt (self : KimDBClient)
    (method path : string) (data : option value) (params : option (gmap string value))
    (w : world) (k : nat) :
  let r := request_of self method path data params in
  let R := _request self method path data params w in
  Z.of_nat k ≤ retries self →
  (∀ j, (j < k)%nat → transient (attempt_outcome w r j) = true) →
  transient (attempt_outcome w r k) = false →
  R.1 = attempt_outcome w r k
  ∧ calls R.2 = (calls w + S k)%nat
  ∧ trace R.2 = trace w ++ backoff_trace r 0 (S k).
Proof.
  intros r R Hk Hfail Hsettled.
  destruct (request_spec self method path data params w)
    as (m & Hle & Hpos & Hcalls & _ & Htrace & _ & Hlast & Hbefore & Hstop).
  fold r in Htrace, Hlast, Hbefore, Hstop. fold R in Hcalls, Htrace, Hlast.
  specialize (Hpos ltac:(lia)).
  assert (Hm : m = S k).
  { destruct (Nat.lt_trichotomy (m - 1) k) as [Hlt|[Heq|Hgt]]; [|lia|].
    - specialize (Hfail _ Hlt).
      destruct (decide (m < Z.to_nat (retries self + 1))%nat) as [Hm|Hm]; [|lia].
      specialize (Hstop Hm). congruence.
    - specialize (Hbefore _ Hgt). congruence. }
  subst m. rewrite (Hlast Hpos), Hcalls, Htrace.
  by replace (S k - 1)%nat with k by lia.
Qed.

Lemma sum_of_first (n : nat) :
  2 * foldr Z.add 0 (Z.of_nat <$> seq 1 n) = Z.of_nat n * (Z.of_nat n + 1).
Proof.
  induction n as [|n IH]; [done|].
  rewrite seq_S, fmap_app, foldr_app. cbn [fmap list_fmap foldr].
  assert (Hacc : ∀ (l : list Z) (a : Z), foldr Z.add a l = foldr Z.add 0 l + a).
  { induction l as [|x l IHl]; intros a; cbn; [lia|]. rewrite IHl. lia. }
  rewrite Hacc. lia.
Qed.

(** X2.  The time one call of [_request] spends in backoff sleeps is
    [m * (m - 1) / 2] for the [m] requests it makes, and at most
    [retries * (retries + 1) / 2] (nothing when [retries <= 0]). *)
Theorem request_total_backoff (self : KimDBClient) (method path : string)
    (data : option value) (params : option (gmap string value)) (w : world) :
  let R := _request self method path data params w in
  ∃ added : list event,
    trace R.2 = trace w ++ added
    ∧ 2 * foldr Z.add 0 (sleeps added)
      = Z.of_nat (requests added) * (Z.of_nat (requests added) - 1)
    ∧ 2 * foldr Z.add 0 (sleeps added)
      ≤ Z.max 0 (retries self) * (Z.max 0 (retries self) + 1).
Proof.
  intros R.
  destruct (request_spec self method path data params w)
    as (m & Hle & _ & _ & _ & Htrace & _).
  eexists. split; [exact Htrace|].
  rewrite backoff_trace_requests, backoff_trace_sleeps, sum_of_first.
  destruct m as [|m']; [split; cbn; lia|].
  replace (S m' - 1)%nat with m' by lia. split; nia.
Qed.

(** X3.  Every request [query] makes is a [POST] of [/api/sql] without
    query parameters whose JSON body holds [sql] and [collection], and
    [params] exactly when a non-empty list was given: [None] and the empty
    list give the same body. *)
Theorem query_requests (self : KimDBClient) (sql collection : string)
    (params : option (list value)) (w : world) :
  ∃ (m : nat) (body : gmap string value),
    trace (query self sql collection params w).2
    = trace w ++ backoff_trace
                   (request_of self "POST" "/api/sql" (Some (JObj body)) None) 0 m
    ∧ body !! "sql" = Some (JStr sql)
    ∧ body !! "collection" = Some (JStr collection)
    ∧ body !! "params" = (match params with
                          | Some (p :: ps) => Some (JArr (p :: ps))
                          | _ => None
                          end)
    ∧ ∀ key, is_Some (body !! key) → key ∈ ["sql"; "collection"; "params"].
Proof.
  unfold query.
  set (body := match params with
               | Some (p :: ps) => <["params" := JArr (p :: ps)]> _
               | _ => _
               end).
  destruct (request_spec self "POST" "/api/sql" (Some (JObj body)) None w)
    as (m & _ & _ & _ & _ & Htrace & _).
  exists m, body. split; [exact Htrace|].
  assert (Hkeys : ∀ key : string,
            key ∉ ["sql"; "collection"; "params"] → body !! key = None).
  { intros key Hkey. rewrite !not_elem_of_cons in Hkey.
    destruct Hkey as (? & ? & ? & _).
    subst body. destruct params as [[|p ps]|]; by simplify_map_eq. }
  repeat split.
  - subst body. destruct params as [[|p ps]|]; by simplify_map_eq.
  - subst body. destruct params as [[|p ps]|]; by simplify_map_eq.
  - subst body. destruct params as [[|p ps]|]; by simplify_map_eq.
  - intros key [x Hx].
    destruct (decide (key ∈ ["sql"; "collection"; "params"])) as [|Hn]; [done|].
    rewrite (Hkeys key Hn) in Hx. done.
Qed.

End RequestMore.

Section ClientMore.
Import Py Client.
Context `{PyRuntime}.

Lemma rstrip_suffix (c : ascii) (s : string) :
  ∃ k : nat, s = (rstrip c s ++ Stdlib.Strings.String.string_of_list_ascii (repeat c k))%string.
Proof.
  induction s as [|a rest [k IH]]; [by exists 0%nat|].
  cbn [rstrip]. destruct (rstrip c rest) as [|b rest'] eqn:Hrest.
  - destruct (Ascii.eqb_spec a c) as [->|Hne].
    + exists (S k). cbn. by rewrite IH at 1.
    + exists k. cbn. by rewrite IH at 1.
  - exists k. cbn. by rewrite IH at 1.
Qed.

Lemma append_cons (a : ascii) (s t : string) :
  (String a s ++ t)%string = String a (s ++ t).
Proof. done. Qed.

Lemma append_nil (t : string) : (EmptyString ++ t)%string = t.
Proof. done. Qed.

Lemma rstrip_no_trailing (c : ascii) (s : string) :
  ∀ t : string, rstrip c s ≠ (t ++ String c EmptyString)%string.
Proof.
  induction s as [|a rest IH]; intros t.
  - destruct t; by rewrite ?append_cons, ?append_nil.
  - cbn [rstrip]. destruct (rstrip c rest) as [|b rest'] eqn:Hrest.
    + destruct (Ascii.eqb_spec a c) as [->|Hne].
      * destruct t; by rewrite ?append_cons, ?append_nil.
      * destruct t as [|x t']; rewrite ?append_cons, ?append_nil; [congruence|].
        intros [= _ Heq]. by apply (IH t').
    + destruct t as [|x t']; rewrite ?append_cons, ?append_nil; [congruence|].
      intros [= _ Heq]. by apply (IH t').
Qed.

(** X5.  The base address the client keeps is the one given without its
    trailing slashes: the given address is the kept one followed by
    slashes only, and the kept one does not end with a slash. *)
Theorem init_base_url (url : string) (token api_key : option string)
    (timeout retries : Z) :
  let kept := base_url (__init__ url token api_key timeout retries) in
  (∃ k : nat, url = (kept ++ Stdlib.Strings.String.string_of_list_ascii (repeat "/"%char k))%string)
  ∧ ∀ t : string, kept ≠ (t ++ "/")%string.
Proof.
  intros kept. split.
  - apply rstrip_suffix.
  - apply rstrip_no_trailing.
Qed.

(** X6.  [_setup_headers] always sets [Content-Type: application/json].
    A non-empty token sets [Authorization: Bearer <token>] and leaves
    [X-API-Key] as the session had it, whatever the API key is; without a
    token (none, or the empty string) a non-empty API key sets [X-API-Key]
    and leaves [Authorization] alone; with neither, no other header is
    touched. *)
Theorem setup_headers_auth (self : KimDBClient) (headers : gmap string (string * string)) :
  let h := _setup_headers self headers in
  h !! "content-type" = Some ("Content-Type", "application/json")%string
  ∧ (∀ t, token self = Some t → t ≠ EmptyString →
       h !! "authorization" = Some ("Authorization", "Bearer " ++ t)%string
       ∧ h !! "x-api-key" = headers !! "x-api-key")
  ∧ (∀ k, truthy_str (token self) = false → api_key self = Some k → k ≠ EmptyString →
       h !! "x-api-key" = Some ("X-API-Key", k)%string
       ∧ h !! "authorization" = headers !! "authorization")
  ∧ (truthy_str (token self) = false → truthy_str (api_key self) = false →
       h = <["content-type" := ("Content-Type", "application/json")%string]> headers).
Proof.
  intros h. subst h. unfold _setup_headers, headers_update.
  split; [|split; [|split]].
  - repeat case_match; by simplify_map_eq.
  - intros t Htok Hne. rewrite Htok. cbn.
    apply String.eqb_neq in Hne. rewrite Hne. cbn. by simplify_map_eq.
  - intros k Htok Hkey Hne. rewrite Htok, Hkey. cbn.
    apply String.eqb_neq in Hne. rewrite Hne. cbn. by simplify_map_eq.
  - intros Htok Hkey. by rewrite Htok, Hkey.
Qed.

End ClientMore.

Section Documents.
Import Py Client.
Context `{PyRuntime}.

(** X7.  When the request behind [get_document] returns a JSON object,
    the document is built exactly when the object has [id], [data] and
    [_version]; [_created] and [_updated] are then the object's, or [None]
    where it has none.  Otherwise [get_document] raises the [KeyError] of
    the first field missing, in the order [id], [data], [_version]. *)
Theorem get_document_fields (self : KimDBClient) (collection doc_id : string)
    (w w' : world) (m : gmap string value) :
  _request self "GET" ("/api/c/" ++ collection ++ "/" ++ doc_id) None None w
  = (Return (JObj m), w') →
  (∀ i d v, m !! "id" = Some i → m !! "data" = Some d → m !! "_version" = Some v →
     get_document self collection doc_id w
     = (Return {| id := i; data := d; _version := v;
                  _created := default JNull (m !! "_created");
                  _updated := default JNull (m !! "_updated") |}, w'))
  ∧ (m !! "id" = None →
     get_document self collection doc_id w = (Raise (Exn KeyError (JStr "id")), w'))
  ∧ (is_Some (m !! "id") → m !! "data" = None →
     get_document self collection doc_id w = (Raise (Exn KeyError (JStr "data")), w'))
  ∧ (is_Some (m !! "id") → is_Some (m !! "data") → m !! "_version" = None →
     get_document self collection doc_id w
     = (Raise (Exn KeyError (JStr "_version")), w')).
Proof.
  intros Hreq. unfold get_document, bind, lift. rewrite Hreq.
  cbn [subscript get and_then].
  split; [|split; [|split]].
  - intros i d v -> -> ->. cbn.
    by destruct (m !! "_created"), (m !! "_updated").
  - by intros ->.
  - by intros [i ->] ->.
  - by intros [i ->] [d ->] ->.
Qed.

(** X8.  When the query behind [count] returns a JSON object, [count] is
    [0] if the object has no [rows] or an empty list of them; with a first
    row that is an object it is that row's [total], or [0] if the row has
    none, whatever rows follow; with a first row that is not an object it
    raises the [AttributeError] of [get]. *)
Theorem count_result (self : KimDBClient) (collection : string)
    (where_clause : option string) (w w' : world) (m : gmap string value) :
  let sql := (if truthy_str where_clause
              then ("SELECT COUNT(*) as total FROM " ++ collection) ++ " WHERE "
                     ++ default EmptyString where_clause
              else "SELECT COUNT(*) as total FROM " ++ collection)%string in
  query self sql collection None w = (Return (JObj m), w') →
  (m !! "rows" = None ∨ m !! "rows" = Some (JArr []) →
     count self collection where_clause w = (Return (JInt 0), w'))
  ∧ (∀ row rest, m !! "rows" = Some (JArr (JObj row :: rest)) →
       count self collection where_clause w
       = (Return (default (JInt 0) (row !! "total")), w'))
  ∧ (∀ first rest, m !! "rows" = Some (JArr (first :: rest)) →
       (∀ row, first ≠ JObj row) →
       count self collection where_clause w = (Raise (no_attribute first "get"), w')).
Proof.
  intros sql Hquery.
  assert (Hcount : count self collection where_clause w
                   = ((let? rows := get (JObj m) "rows" (JArr []) in
                       if truthy rows
                       then let? first := first_item rows in get first "total" (JInt 0)
                       else Return (JInt 0))%py, w')).
  { unfold count, bind, lift.
    fold sql. by rewrite Hquery. }
  rewrite Hcount. cbn [get and_then]. split; [|split].
  - by intros [-> | ->].
  - intros row rest ->. cbn. by destruct (row !! "total").
  - intros first rest -> Hfirst. cbn.
    destruct first; try done. by destruct (Hfirst m0).
Qed.

Lemma group_by_rows_app (field : string) (good : list (gmap string value)) :
  Forall (fun row => is_Some (row !! field)) good →
  ∀ (rest : list value) (result : gmap string value),
    group_by_rows field ((JObj <$> good) ++ rest) result
    = group_by_rows field rest
        (foldl (fun result row =>
                  <[py_str (default JNull (row !! field))
                      := default (JInt 0) (row !! "count")]> result)
               result good).
Proof.
  induction 1 as [|row good [key Hkey] _ IH]; intros rest result; [done|].
  rewrite fmap_cons. cbn [app group_by_rows group_by_step get and_then foldl].
  rewrite Hkey. cbn [and_then default]. rewrite IH.
  by destruct (row !! "count").
Qed.

(** X9.  [group_by] gives no partial result: when the rows start with
    objects that have the grouped field and then comes a row that is an
    object without it, [group_by] raises the [KeyError] of that field; when
    that row is not an object, it raises the [AttributeError] of [get]. *)
Theorem group_by_bad_row (self : KimDBClient) (collection field : string)
    (w w' : world) (response : gmap string value)
    (good : list (gmap string value)) (bad : value) (rest : list value) :
  query self
    ("SELECT " ++ field ++ ", COUNT(*) as count FROM " ++ collection
       ++ " GROUP BY " ++ field) collection None w
  = (Return (JObj response), w') →
  response !! "rows" = Some (JArr ((JObj <$> good) ++ bad :: rest)) →
  Forall (fun row => is_Some (row !! field)) good →
  (∀ row, bad = JObj row → row !! field = None →
     group_by self collection field w = (Raise (Exn KeyError (JStr field)), w'))
  ∧ ((∀ row, bad ≠ JObj row) →
     group_by self collection field w = (Raise (no_attribute bad "get"), w')).
Proof.
  intros Hquery Hrows Hgood.
  assert (Hgb : ∀ e,
            group_by_step field
              (foldl (fun result row =>
                        <[py_str (default JNull (row !! field))
                            := default (JInt 0) (row !! "count")]> result) ∅ good) bad
            = Raise e →
            group_by self collection field w = (Raise e, w')).
  { intros e He. unfold group_by, bind, lift. rewrite Hquery. cbn [get and_then].
    rewrite Hrows. cbn [iter and_then].
    rewrite group_by_rows_app by done. cbn [group_by_rows]. by rewrite He. }
  split.
  - intros row -> Hrow. apply Hgb. unfold group_by_step. cbn. by rewrite Hrow.
  - intros Hbad. apply Hgb. unfold group_by_step.
    destruct bad; try done. by destruct (Hbad m).
Qed.

End Documents.

(** * Further properties of the event channel *)

Section Listeners.
Import Py WebSocket.
Context `{PyRuntime}.

Lemma emit_spec (event : string) (data : value) (st : state) :
  _emit event data st
  = (Return tt,
     {| self := self st; transport := transport st; sent := sent st;
        printed := printed st
                   ++ omap (callback_log data) (default [] (callbacks (self st) !! event));
        invoked := invoked st
                   ++ ((fun cb => (cb_id cb, data))
                         <$> default [] (callbacks (self st) !! event)) |}).
Proof.
  unfold _emit. destruct (callbacks (self st) !! event) as [listeners|].
  - apply emit_loop_spec.
  - cbn. rewrite !app_nil_r. by destruct st.
Qed.

(** X10.  [on] returns and appends the listener to the list of its event,
    which it creates when the name is new; the lists of all other events,
    the connection and everything outside the registry stay as they were. *)
Theorem on_registers (event : string) (cb : callback) (st : state) :
  (on event cb st).1 = Return tt
  ∧ callbacks (self (on event cb st).2) !! event
    = Some (default [] (callbacks (self st) !! event) ++ [cb])
  ∧ (∀ other, other ≠ event →
       callbacks (self (on event cb st).2) !! other = callbacks (self st) !! other)
  ∧ connected (self (on event cb st).2) = connected (self st)
  ∧ ws (self (on event cb st).2) = ws (self st)
  ∧ node_id (self (on event cb st).2) = node_id (self st)
  ∧ sent (on event cb st).2 = sent st
  ∧ printed (on event cb st).2 = printed st
  ∧ invoked (on event cb st).2 = invoked st.
Proof.
  split; [done|]. split; [apply on_appends|]. split; [|done].
  intros other Hother. unfold on. cbn.
  rewrite lookup_alter_ne by done.
  destruct (callbacks (self st) !! event); [done|]. by rewrite lookup_insert_ne.
Qed.

(** A frame that is an object either goes to [_emit] under its own type,
    one of the six, or changes nothing. *)
Lemma handle_message_cases (frame : gmap string value) :
  (∃ event payload,
      event ∈ frame_types ∧ frame !! "type" = Some (JStr event)
      ∧ ∀ st, _handle_message (JObj frame) st = _emit event payload st)
  ∨ ((∀ event, event ∈ frame_types → frame !! "type" ≠ Some (JStr event))
     ∧ ∀ st, _handle_message (JObj frame) st = (Return tt, st)).
Proof.
  unfold _handle_message, bind, lift. cbn [get].
  destruct (frame !! "type") as [v|] eqn:Htype.
  2:{ right. split; [by intros|done]. }
  destruct v as [| | | |s| |];
    try (right; split; [by intros|done]).
  cbn [eq_str].
  destruct (String.eqb_spec s "subscribed") as [->|H1].
  { left. do 2 eexists. split; [|split; [done|intros st; reflexivity]].
    unfold frame_types. set_solver. }
  destruct (String.eqb_spec s "doc.synced") as [->|H2].
  { left. do 2 eexists. split; [|split; [done|intros st; reflexivity]].
    unfold frame_types. set_solver. }
  destruct (String.eqb_spec s "doc.updated") as [->|H3].
  { left. do 2 eexists. split; [|split; [done|intros st; reflexivity]].
    unfold frame_types. set_solver. }
  destruct (String.eqb_spec s "presence.changed") as [->|H4].
  { left. do 2 eexists. split; [|split; [done|intros st; reflexivity]].
    unfold frame_types. set_solver. }
  destruct (String.eqb_spec s "pong") as [->|H5].
  { left. do 2 eexists. split; [|split; [done|intros st; reflexivity]].
    unfold frame_types. set_solver. }
  destruct (String.eqb_spec s "error") as [->|H6].
  { left. do 2 eexists. split; [|split; [done|intros st; reflexivity]].
    unfold frame_types. set_solver. }
  right. split; [|done].
  intros event Hevent [= <-]. unfold frame_types in Hevent.
  repeat (apply elem_of_cons in Hevent as [->|Hevent]; [done|]).
  by apply elem_of_nil in Hevent.
Qed.

(** X11.  A frame that parses to an object whose [type] is missing, is not
    a string or is none of the six dispatched names is ignored:
    [_on_message] returns and the state is exactly as before. *)
Theorem on_message_ignores_other_types (message : string)
    (frame : gmap string value) (st : state) :
  json_loads message = Return (JObj frame) →
  (∀ event, event ∈ frame_types → frame !! "type" ≠ Some (JStr event)) →
  _on_message message st = (Return tt, st).
Proof.
  intros Hloads Hother. unfold _on_message, try_except, bind at 1, lift at 1.
  rewrite Hloads.
  destruct (handle_message_cases frame)
    as [(event & payload & Hin & Htype & _) | [_ Hsame]].
  - by destruct (Hother event Hin).
  - by rewrite Hsame.
Qed.

(** X12.  A frame of one of the six types reaches the listeners registered
    under that very name and no others: the handler returns, and the calls
    it adds are those listeners in order, all with one payload; the object
    and the messages sent are untouched. *)
Theorem frame_reaches_only_its_listeners (frame : gmap string value)
    (event : string) (st : state) :
  frame !! "type" = Some (JStr event) → event ∈ frame_types →
  ∃ payload : value,
    (_handle_message (JObj frame) st).1 = Return tt
    ∧ invoked (_handle_message (JObj frame) st).2
      = invoked st
        ++ ((fun cb => (cb_id cb, payload))
              <$> default [] (callbacks (self st) !! event))
    ∧ self (_handle_message (JObj frame) st).2 = self st
    ∧ sent (_handle_message (JObj frame) st).2 = sent st.
Proof.
  intros Htype Hin.
  destruct (handle_message_cases frame)
    as [(event' & payload & _ & Htype' & Hemit) | [Hother _]].
  - assert (event' = event) as -> by congruence.
    exists payload. by rewrite Hemit, emit_spec.
  - by destruct (Hother event Hin).
Qed.

(** X13.  An [error] frame reaches the [error] listeners with
    [{message: <the frame's error field>}]; the message is the text
    [Unknown error] only when the frame has no [error] field at all. *)
Theorem error_frame_payload (frame : gmap string value) (st : state) :
  frame !! "type" = Some (JStr "error") →
  _handle_message (JObj frame) st
  = _emit "error"
      (JObj {[ "message" := default (JStr "Unknown error") (frame !! "error") ]}) st.
Proof.
  intros Htype. unfold _handle_message, bind, lift. cbn [get].
  rewrite Htype. cbn. by destruct (frame !! "error").
Qed.

Lemma on_message_printed (message : string) (st : state) :
  ∃ (r : outcome unit) (lines : list string) (calls : list (nat * value)),
    ∀ p : list string,
      _on_message message (with_printed p st)
      = (r, {| self := self st; transport := transport st; sent := sent st;
               printed := p ++ lines; invoked := invoked st ++ calls |}).
Proof.
  unfold _on_message, try_except, bind at 1, lift at 1.
  destruct (json_loads message) as [v|e].
  - destruct v as [| | | | | |frame];
      try (eexists _, [], []; intros p; cbn; by rewrite !app_nil_r).
    destruct (handle_message_cases frame)
      as [(event & payload & _ & _ & Hemit) | [_ Hsame]].
    + eexists _, _, _. intros p. rewrite Hemit, emit_spec. cbn. reflexivity.
    + eexists _, [], []. intros p. rewrite Hsame. cbn. by rewrite !app_nil_r.
  - destruct (is_json_decode_error e).
    + eexists _, [_], []. intros p. cbn. by rewrite app_nil_r.
    + eexists _, [], []. intros p. cbn. by rewrite !app_nil_r.
Qed.

(** X14.  A frame that is not JSON is dropped: [_on_message] returns with
    one more printed line and nothing else changed, and the frame that
    comes next is handled as it would have been without it, with the same
    outcome, listener calls and printed lines after that one line. *)
Theorem malformed_frame_then_next (bad next : string) (error : exn) (st : state) :
  json_loads bad = Raise error → is_json_decode_error error = true →
  let line := ("[KimDB] Failed to parse message: " ++ str_of_exn error)%string in
  _on_message bad st = (Return tt, with_printed (printed st ++ [line]) st)
  ∧ ∃ lines : list string,
      printed (_on_message next st).2 = printed st ++ lines
      ∧ _on_message next (_on_message bad st).2
        = ((_on_message next st).1,
           with_printed (printed st ++ [line] ++ lines) (_on_message next st).2).
Proof.
  intros Hloads Hcls line.
  assert (Hbad : _on_message bad st
                 = (Return tt, with_printed (printed st ++ [line]) st)).
  { unfold _on_message, try_except, bind at 1, lift at 1.
    rewrite Hloads. cbn. by rewrite Hcls. }
  split; [exact Hbad|].
  destruct (on_message_printed next st) as (r & lines & calls & Hnext).
  exists lines. rewrite Hbad. cbn [snd].
  assert (Hst : with_printed (printed st) st = st) by by destruct st.
  pose proof (Hnext (printed st)) as Hplain. rewrite Hst in Hplain.
  rewrite Hplain, Hnext. cbn. by rewrite <- app_assoc.
Qed.

(** X19.  [_on_close] returns whatever the listeners do, leaves the flag
    false and the rest of the object alone, and calls the [disconnected]
    listeners in order with an empty payload. *)
Theorem on_close_effect (st : state) :
  (_on_close st).1 = Return tt
  ∧ self (_on_close st).2 = set_connected false (self st)
  ∧ invoked (_on_close st).2
    = invoked st ++ ((fun cb => (cb_id cb, JObj ∅))
                       <$> default [] (callbacks (self st) !! "disconnected"))
  ∧ printed (_on_close st).2
    = printed st ++ "[KimDB] WebSocket disconnected"%string
                    :: omap (callback_log (JObj ∅))
                         (default [] (callbacks (self st) !! "disconnected"))
  ∧ sent (_on_close st).2 = sent st.
Proof.
  unfold _on_close, bind, print. rewrite emit_spec. cbn.
  by rewrite <- app_assoc.
Qed.

(** X20.  [_on_error] returns whatever the listeners do and calls the
    [error] listeners in order with [{message: str(error)}]; the
    connected flag and the messages sent are untouched. *)
Theorem on_error_effect (error : exn) (st : state) :
  (_on_error error st).1 = Return tt
  ∧ self (_on_error error st).2 = self st
  ∧ invoked (_on_error error st).2
    = invoked st
      ++ ((fun cb => (cb_id cb, JObj {[ "message" := JStr (str_of_exn error) ]}))
            <$> default [] (callbacks (self st) !! "error"))
  ∧ sent (_on_error error st).2 = sent st.
Proof. unfold _on_error, bind, print. by rewrite emit_spec. Qed.

End Listeners.

Section Sending.
Import Py WebSocket.
Context `{PyRuntime}.

Lemma ws_send_spec (message : value) (st : state) (handle : WebSocketApp) :
  ws (self st) = Some handle →
  ws_send message st
  = (match transport st (length (sent st)) message with
     | None => Return tt
     | Some e => Raise e
     end,
     {| self := self st; transport := transport st; sent := sent st ++ [message];
        printed := printed st; invoked := invoked st |}).
Proof.
  intros Hws. unfold ws_send. rewrite Hws.
  by destruct (transport st (length (sent st)) message).
Qed.

(** X15.  [_ping] never raises.  When the flag is false it does nothing;
    when the flag is true and there is a handle it hands [{type: ping}] to
    [ws.send] and turns a failure of the send into a printed line; when the
    flag is true and there is no handle it sends nothing and prints the
    [AttributeError]. *)
Theorem ping_never_raises (st : state) :
  (_ping st).1 = Return tt
  ∧ self (_ping st).2 = self st
  ∧ invoked (_ping st).2 = invoked st
  ∧ (connected (self st) = false → _ping st = (Return tt, st))
  ∧ (∀ handle, connected (self st) = true → ws (self st) = Some handle →
       sent (_ping st).2 = sent st ++ [JObj {[ "type" := JStr "ping" ]}]
       ∧ printed (_ping st).2
         = printed st
           ++ match transport st (length (sent st)) (JObj {[ "type" := JStr "ping" ]}) with
              | None => []
              | Some e => [("[KimDB] Ping failed: " ++ str_of_exn e)%string]
              end)
  ∧ (connected (self st) = true → ws (self st) = None →
       sent (_ping st).2 = sent st
       ∧ printed (_ping st).2
         = printed st ++ ["[KimDB] Ping failed: 'NoneType' object has no attribute 'send'"%string]).
Proof.
  unfold _ping, try_except.
  destruct (connected (self st)) eqn:Hflag.
  2:{ repeat split; done. }
  destruct (ws (self st)) as [handle|] eqn:Hws.
  - rewrite (ws_send_spec _ st handle Hws).
    destruct (transport st (length (sent st)) _) as [e|] eqn:Ht; cbn;
      rewrite ?app_nil_r; by repeat split.
  - unfold ws_send. rewrite Hws. cbn. by repeat split.
Qed.

(** X16.  On a connected channel with a handle, each of [update_document],
    [undo], [redo] and [update_presence] hands exactly one message to
    [ws.send]; the message names the collection and the document and
    carries the channel's node id as [nodeId].  The object is not changed,
    and if the send raises, the exception reaches the caller. *)
Theorem mutating_messages_carry_node_id (st : state) (handle : WebSocketApp)
    (collection doc_id : string) (data presence : value) (R : outcome unit * state) :
  connected (self st) = true → ws (self st) = Some handle →
  R ∈ [ update_document collection doc_id data st; undo collection doc_id st;
        redo collection doc_id st; update_presence collection doc_id presence st ] →
  ∃ message : gmap string value,
    sent R.2 = sent st ++ [JObj message]
    ∧ message !! "nodeId" = Some (JStr (node_id (self st)))
    ∧ message !! "collection" = Some (JStr collection)
    ∧ message !! "docId" = Some (JStr doc_id)
    ∧ self R.2 = self st
    ∧ R.1 = match transport st (length (sent st)) (JObj message) with
            | None => Return tt
            | Some e => Raise e
            end.
Proof.
  intros Hflag Hws HR.
  repeat (apply elem_of_cons in HR as [->|HR]);
    [| | | |by apply elem_of_nil in HR].
  all: unfold update_document, undo, redo, update_presence;
    rewrite Hflag; cbn [negb]; rewrite (ws_send_spec _ st handle Hws);
    eexists; cbn [fst snd sent self];
    (split; [reflexivity|]); repeat split; by simplify_map_eq.
Qed.

(** X17.  [disconnect] is idempotent: after a call that returned, a second
    call returns too and changes nothing; in particular it does not call
    [close] again. *)
Theorem disconnect_idempotent (c : channel) :
  (disconnect c).1 = Return tt →
  disconnect (disconnect c).2 = (Return tt, (disconnect c).2).
Proof.
  destruct c as [[[u n [handle|] flag cbs] t s p i] closing closed];
    unfold disconnect; cbn.
  - by destruct (closing (length closed)).
  - done.
Qed.

(** X18.  After [disconnect], also one whose [close] raised, the flag is
    false and each of the six outbound actions raises the not-connected
    error without handing anything to [ws.send]. *)
Theorem disconnect_then_refuses (c : channel) (collection doc_id : string)
    (data presence : value) (R : outcome unit * state) :
  let st := chan (disconnect c).2 in
  R ∈ [ subscribe collection st; subscribe_document collection doc_id st;
        update_document collection doc_id data st; undo collection doc_id st;
        redo collection doc_id st; update_presence collection doc_id presence st ] →
  connected (self st) = false
  ∧ sent st = sent (chan c)
  ∧ R = (Raise not_connected, st).
Proof.
  intros st HR.
  assert (Hflag : connected (self st) = false ∧ sent st = sent (chan c)).
  { subst st. unfold disconnect. cbn.
    destruct (ws (self (chan c))); [|done].
    by destruct (closing c (length (closed c))). }
  destruct Hflag as [Hflag Hsent]. split; [done|]. split; [done|].
  repeat (apply elem_of_cons in HR as [->|HR]);
    [| | | | | |by apply elem_of_nil in HR].
  all: unfold subscribe, subscribe_document, update_document, undo, redo,
         update_presence; by rewrite Hflag.
Qed.

End Sending.

Section Connecting.
Import Py WebSocket.
Context `{PyRuntime}.

Lemma wait_loop_found (env : connect_env) (timeout : Z) (start_time : Q) (k : nat) :
  (∀ j, (j < k)%nat →
     flag env j = false
     ∧ Qlt_bool (clock env (S j) - start_time) (inject_Z timeout) = true) →
  flag env k = true →
  ∀ d j, (j + d)%nat = k → wait_loop (S d) env timeout start_time j = Some (S k).
Proof.
  intros Hbefore Hfound d. induction d as [|d IH]; intros j Hj; rewrite wait_loop_step.
  - replace j with k by lia. by rewrite Hfound.
  - destruct (Hbefore j ltac:(lia)) as [-> ->]. cbn. apply IH. lia.
Qed.

(** X21.  If building the channel succeeds, the flag is found false at the
    first [k] reads while the clock is within the timeout, and is found
    true at the next read and at the check after the loop, then [connect]
    returns after [k + 1] tests.  The calling thread has stored the handle
    and done nothing else: the state is that one as the background thread
    changed it. *)
Theorem connect_success (timeout : Z) (env : connect_env) (k : nat) (st : state) :
  app_error env = None → thread_error env = None →
  (∀ j, (j < k)%nat →
     flag env j = false
     ∧ Qlt_bool (clock env (S j) - clock env 0) (inject_Z timeout) = true) →
  flag env k = true → flag env (S k) = true →
  connect timeout env (S k) st
  = Some (Return tt,
          background env (set_self (set_ws (Some (App (url (self st)))) (self st)) st)).
Proof.
  intros Happ Hthread Hbefore Hfound Hcheck.
  unfold connect, connect_body. rewrite Happ, Hthread.
  rewrite (wait_loop_found env timeout (clock env 0) k Hbefore Hfound k 0%nat eq_refl).
  by rewrite Hcheck.
Qed.

(** X22.  [connect] returns only when building the channel succeeded and
    the flag was found true at the check after the loop; the calling
    thread has then stored the handle and done nothing else, the state
    being that one as the background thread changed it. *)
Theorem connect_returns_only_connected (timeout : Z) (env : connect_env) (fuel : nat)
    (st st' : state) :
  connect timeout env fuel st = Some (Return tt, st') →
  app_error env = None ∧ thread_error env = None
  ∧ (∃ reads, wait_loop fuel env timeout (clock env 0) 0 = Some reads
              ∧ flag env reads = true)
  ∧ st' = background env (set_self (set_ws (Some (App (url (self st)))) (self st)) st).
Proof.
  unfold connect, connect_body.
  destruct (app_error env); [done|].
  destruct (thread_error env); [done|].
  destruct (wait_loop fuel env timeout (clock env 0) 0) as [reads|] eqn:Hreads; [|done].
  destruct (flag env reads) eqn:Hflag; [|done].
  cbn. intros [= <-]. repeat split; try done. by exists reads.
Qed.

(** X24.  A failure while the channel is built needs no waiting and comes
    back as a [ConnectionError] that wraps the text of the cause.  When
    [WebSocketApp] raises, the state is untouched; when starting the thread
    raises, the handle already stored is kept; no thread runs in either
    case, and the flag is as it was. *)
Theorem connect_setup_failures (timeout : Z) (env : connect_env) (fuel : nat)
    (st : state) :
  (∀ e, app_error env = Some e →
     connect timeout env fuel st
     = Some (Raise (Exn ConnectionError (JStr ("Failed to connect: " ++ str_of_exn e))),
             st))
  ∧ (∀ e, app_error env = None → thread_error env = Some e →
       connect timeout env fuel st
       = Some (Raise (Exn ConnectionError (JStr ("Failed to connect: " ++ str_of_exn e))),
               set_self (set_ws (Some (App (url (self st)))) (self st)) st)).
Proof.
  unfold connect, connect_body. split.
  - by intros e ->.
  - by intros e -> ->.
Qed.

End Connecting.

(** ** The further properties at concrete inputs *)

Section ConcreteMore.
Import Py Client WebSocket.

(** A 500 whose body is a JSON array ends the call at the first attempt,
    with three retries left. *)
Lemma request_stops_at_first_settled_attempt_witness :
  (_request (H:=Demo.runtime) (Demo.client 3) "GET" "/health" None None
     (Demo.world_of (fun _ _ => Return Demo.array_error))).1
  = Raise (Exn AttributeError (JStr "'list' object has no attribute 'get'"))
  ∧ calls (_request (H:=Demo.runtime) (Demo.client 3) "GET" "/health" None None
             (Demo.world_of (fun _ _ => Return Demo.array_error))).2 = 1%nat
  ∧ trace (_request (H:=Demo.runtime) (Demo.client 3) "GET" "/health" None None
             (Demo.world_of (fun _ _ => Return Demo.array_error))).2
    = [EvRequest (request_of (H:=Demo.runtime) (Demo.client 3) "GET" "/health" None None)].
Proof.
  apply (request_stops_at_first_settled_attempt (H:=Demo.runtime) (Demo.client 3)
           "GET" "/health" None None
           (Demo.world_of (fun _ _ => Return Demo.array_error)) 0);
    [cbn; lia|intros j Hj; lia|reflexivity].
Defined.

Lemma failed_response_other_body_witness :
  handle_response (Return Demo.array_error) = Raise (no_attribute (JArr []) "get").
Proof.
  apply (proj2 (failed_response_other_body Demo.array_error eq_refl
                  ltac:(discriminate)) (JArr []) eq_refl).
  intros m. discriminate.
Defined.

(** The specification's example document. *)
Lemma get_document_fields_witness :
  get_document (H:=Demo.runtime) (Demo.client 3) "users" "a"
    (Demo.world_of (fun _ _ => Return Demo.document_response))
  = (Return {| id := JStr "a"; data := JObj {[ "x" := JInt 1 ]}; _version := JInt 3;
               _created := JNull; _updated := JNull |},
     (_request (H:=Demo.runtime) (Demo.client 3) "GET" "/api/c/users/a" None None
        (Demo.world_of (fun _ _ => Return Demo.document_response))).2).
Proof.
  apply (proj1 (get_document_fields (H:=Demo.runtime) (Demo.client 3) "users" "a"
                  (Demo.world_of (fun _ _ => Return Demo.document_response))
                  (_request (H:=Demo.runtime) (Demo.client 3) "GET" "/api/c/users/a"
                     None None
                     (Demo.world_of (fun _ _ => Return Demo.document_response))).2
                  Demo.document_fields eq_refl)
           (JStr "a") (JObj {[ "x" := JInt 1 ]}) (JInt 3) eq_refl eq_refl eq_refl).
Defined.

(** The specification's example: one row with [total] 7. *)
Lemma count_result_witness :
  count (H:=Demo.runtime) (Demo.client 3) "users" None
    (Demo.world_of (fun _ _ => Return Demo.total_response))
  = (Return (JInt 7),
     (query (H:=Demo.runtime) (Demo.client 3) "SELECT COUNT(*) as total FROM users"
        "users" None (Demo.world_of (fun _ _ => Return Demo.total_response))).2).
Proof.
  apply (proj1 (proj2 (count_result (H:=Demo.runtime) (Demo.client 3) "users" None
                         (Demo.world_of (fun _ _ => Return Demo.total_response))
                         (query (H:=Demo.runtime) (Demo.client 3)
                            "SELECT COUNT(*) as total FROM users" "users" None
                            (Demo.world_of (fun _ _ => Return Demo.total_response))).2
                         {[ "rows" := JArr [JObj {[ "total" := JInt 7 ]}] ]} eq_refl))
           {[ "total" := JInt 7 ]} [] eq_refl).
Defined.

Lemma group_by_bad_row_witness :
  group_by (H:=Demo.runtime) (Demo.client 3) "users" "role"
    (Demo.world_of (fun _ _ => Return Demo.broken_rows_response))
  = (Raise (Exn KeyError (JStr "role")),
     (query (H:=Demo.runtime) (Demo.client 3) Demo.group_by_sql "users" None
        (Demo.world_of (fun _ _ => Return Demo.broken_rows_response))).2).
Proof.
  apply (proj1 (group_by_bad_row (H:=Demo.runtime) (Demo.client 3) "users" "role"
                  (Demo.world_of (fun _ _ => Return Demo.broken_rows_response))
                  (query (H:=Demo.runtime) (Demo.client 3) Demo.group_by_sql "users" None
                     (Demo.world_of (fun _ _ => Return Demo.broken_rows_response))).2
                  {[ "rows" := JArr [ JObj {[ "role" := JStr "admin"; "count" := JInt 2 ]};
                                      JObj {[ "count" := JInt 5 ]} ] ]}
                  [ {[ "role" := JStr "admin"; "count" := JInt 2 ]} ]
                  (JObj {[ "count" := JInt 5 ]}) []
                  eq_refl eq_refl
                  ltac:(repeat constructor; eexists; reflexivity))
           {[ "count" := JInt 5 ]} eq_refl eq_refl).
Defined.

Lemma on_message_ignores_other_types_witness :
  _on_message (H:=Demo.runtime) "{}" Demo.fresh = (Return tt, Demo.fresh).
Proof.
  apply (on_message_ignores_other_types (H:=Demo.runtime) "{}" ∅ Demo.fresh eq_refl).
  intros event _. discriminate.
Defined.

Lemma frame_reaches_only_its_listeners_witness :
  ∃ payload : value,
    (_handle_message (H:=Demo.runtime) (JObj Demo.updated_frame)
       (register_all "error" [Demo.raising_listener]
          (register_all "doc.updated" [Demo.quiet_listener] Demo.fresh))).1 = Return tt
    ∧ invoked (_handle_message (H:=Demo.runtime) (JObj Demo.updated_frame)
                 (register_all "error" [Demo.raising_listener]
                    (register_all "doc.updated" [Demo.quiet_listener] Demo.fresh))).2
      = [(2%nat, payload)]
    ∧ self (_handle_message (H:=Demo.runtime) (JObj Demo.updated_frame)
              (register_all "error" [Demo.raising_listener]
                 (register_all "doc.updated" [Demo.quiet_listener] Demo.fresh))).2
      = self (register_all "error" [Demo.raising_listener]
                (register_all "doc.updated" [Demo.quiet_listener] Demo.fresh))
    ∧ sent (_handle_message (H:=Demo.runtime) (JObj Demo.updated_frame)
              (register_all "error" [Demo.raising_listener]
                 (register_all "doc.updated" [Demo.quiet_listener] Demo.fresh))).2
      = [].
Proof.
  apply (frame_reaches_only_its_listeners (H:=Demo.runtime) Demo.updated_frame
           "doc.updated"
           (register_all "error" [Demo.raising_listener]
              (register_all "doc.updated" [Demo.quiet_listener] Demo.fresh))
           eq_refl).
  unfold frame_types. repeat constructor.
Defined.

Lemma error_frame_payload_witness :
  _handle_message (H:=Demo.runtime) (JObj {[ "type" := JStr "error" ]}) Demo.fresh
  = _emit (H:=Demo.runtime) "error" (JObj {[ "message" := JStr "Unknown error" ]})
      Demo.fresh.
Proof.
  apply (error_frame_payload (H:=Demo.runtime) {[ "type" := JStr "error" ]} Demo.fresh).
  reflexivity.
Defined.

Lemma malformed_frame_then_next_witness :
  _on_message (H:=Demo.runtime) "not json" Demo.fresh
  = (Return tt,
     with_printed ["[KimDB] Failed to parse message: Expecting value"%string] Demo.fresh)
  ∧ ∃ lines : list string,
      printed (_on_message (H:=Demo.runtime) "[]" Demo.fresh).2 = [] ++ lines
      ∧ _on_message (H:=Demo.runtime) "[]"
          (_on_message (H:=Demo.runtime) "not json" Demo.fresh).2
        = ((_on_message (H:=Demo.runtime) "[]" Demo.fresh).1,
           with_printed
             ([] ++ ["[KimDB] Failed to parse message: Expecting value"%string] ++ lines)
             (_on_message (H:=Demo.runtime) "[]" Demo.fresh).2).
Proof.
  apply (malformed_frame_then_next (H:=Demo.runtime) "not json" "[]"
           (Exn JSONDecodeError (JStr "Expecting value")) Demo.fresh eq_refl eq_refl).
Defined.

Lemma mutating_messages_carry_node_id_witness :
  ∃ message : gmap string value,
    sent (undo "users" "d1" Demo.live).2 = [] ++ [JObj message]
    ∧ message !! "nodeId" = Some (JStr "node-1")
    ∧ message !! "collection" = Some (JStr "users")
    ∧ message !! "docId" = Some (JStr "d1")
    ∧ self (undo "users" "d1" Demo.live).2 = self Demo.live
    ∧ (undo "users" "d1" Demo.live).1 = Return tt.
Proof.
  apply (mutating_messages_carry_node_id Demo.live (App "ws://localhost:40000/ws")
           "users" "d1" JNull JNull (undo "users" "d1" Demo.live) eq_refl eq_refl).
  repeat constructor.
Defined.

Lemma disconnect_idempotent_witness :
  disconnect (disconnect Demo.live_channel).2
  = (Return tt, (disconnect Demo.live_channel).2).
Proof. apply (disconnect_idempotent Demo.live_channel). reflexivity. Defined.

Lemma disconnect_then_refuses_witness :
  connected (self (chan (disconnect Demo.live_channel).2)) = false
  ∧ sent (chan (disconnect Demo.live_channel).2) = []
  ∧ subscribe "users" (chan (disconnect Demo.live_channel).2)
    = (Raise not_connected, chan (disconnect Demo.live_channel).2).
Proof.
  apply (disconnect_then_refuses Demo.live_channel "users" "d1" JNull JNull
           (subscribe "users" (chan (disconnect Demo.live_channel).2))).
  repeat constructor.
Defined.

(** The flag is found true at the third read, two tenths of a second in;
    the state is the one [_on_open] left. *)
Lemma connect_success_witness :
  connect (H:=Demo.runtime) 10 Demo.soon_connected 3 Demo.fresh
  = Some (Return tt,
          Demo.opened
            (set_self (set_ws (Some (App "ws://localhost:40000/ws")) (self Demo.fresh))
               Demo.fresh)).
Proof.
  apply (connect_success (H:=Demo.runtime) 10 Demo.soon_connected 2 Demo.fresh
           eq_refl eq_refl);
    [intros [|[|j]] Hj; [split; reflexivity|split; reflexivity|lia]
    |reflexivity|reflexivity].
Defined.

Lemma connect_returns_only_connected_witness :
  app_error Demo.soon_connected = None ∧ thread_error Demo.soon_connected = None
  ∧ (∃ reads, wait_loop 3 Demo.soon_connected 10 (clock Demo.soon_connected 0) 0
              = Some reads
              ∧ flag Demo.soon_connected reads = true)
  ∧ Demo.opened
      (set_self (set_ws (Some (App "ws://localhost:40000/ws")) (self Demo.fresh))
         Demo.fresh)
    = background Demo.soon_connected
        (set_self (set_ws (Some (App (url (self Demo.fresh)))) (self Demo.fresh))
           Demo.fresh).
Proof.
  apply (connect_returns_only_connected (H:=Demo.runtime) 10 Demo.soon_connected 3
           Demo.fresh
           (Demo.opened
              (set_self (set_ws (Some (App "ws://localhost:40000/ws")) (self Demo.fresh))
                 Demo.fresh))).
  reflexivity.
Defined.

(** After that connection the channel is connected, the line of
    [_on_open] is printed and [subscribe] gets through to [ws.send]. *)
Example connect_then_subscribe :
  let st := Demo.opened
              (set_self (set_ws (Some (App "ws://localhost:40000/ws")) (self Demo.fresh))
                 Demo.fresh) in
  connected (self st) = true
  ∧ printed st = ["[KimDB] WebSocket connected (nodeId: node-1)"%string]
  ∧ (subscribe "users" st).1 = Return tt
  ∧ length (sent (subscribe "users" st).2) = 1%nat.
Proof. repeat split; reflexivity. Qed.

(** A listener that raises [KeyError('role')] is logged with the key in
    quotes, as [str] of a [KeyError] gives it. *)
Example callback_key_error_logged :
  printed (_emit (H:=Demo.runtime) "pong" JNull
             (on "pong"
                {| cb_id := 3; cb_run := fun _ => Some (Exn KeyError (JStr "role")) |}
                Demo.fresh).2).2
  = ["[KimDB] Callback error: 'role'"%string].
Proof. reflexivity. Qed.

Lemma connect_raises_only_connection_error_witness :
  cls (Exn ConnectionError (JStr "Failed to connect: scheme http is invalid"))
  = ConnectionError.
Proof.
  apply (connect_raises_only_connection_error (H:=Demo.runtime) 10 Demo.setup_failure 0
           Demo.fresh Demo.fresh).
  reflexivity.
Defined.

End ConcreteMore.
